(** * Recognizer: model selection and recognition, verified against the
    Python sources [my_model_selectors.py] and [my_recognizer.py].

    The Python code is embedded shallowly:
    - Python floats are IEEE 754 binary64 values ([spec_float] of the
      standard library, precision 53, maximal exponent 1024);
    - Python ints are [Z];
    - an exception is a value [Raised e] of the [outcome] type, and code
      that calls the HMM library runs in a monad [M] that threads the
      process state (the global numpy random generator and a trace of the
      library calls and printed lines) through the exceptions;
    - a Python dict is an insertion-ordered association list;
    - hmmlearn, numpy's [log], sklearn's [KFold] and [combine_sequences]
      are external: they are the fields of the class [Backend]. *)

From Stdlib Require Import ZArith List String Bool Lia SpecFloat Sorted.
Import ListNotations.
Local Open Scope string_scope.
Local Open Scope list_scope.
Local Open Scope Z_scope.

(** ** Python floats *)

Module Float.

Definition float := spec_float.

Definition prec : Z := 53.
Definition emax : Z := 1024.

(** [float('inf')], [np.inf] and [float('-inf')], [-np.inf] *)
Definition inf : float := S754_infinity false.
Definition neg_inf : float := S754_infinity true.
Definition nan : float := S754_nan.
(** the float [0.0] *)
Definition zero : float := S754_zero false.

Definition add : float -> float -> float := SFadd prec emax.
Definition sub : float -> float -> float := SFsub prec emax.
Definition mul : float -> float -> float := SFmul prec emax.
Definition div : float -> float -> float := SFdiv prec emax.

(** [x < y] and [x > y]; both are [False] when an operand is NaN *)
Definition lt (x y : float) : bool := SFltb x y.
Definition gt (x y : float) : bool := SFltb y x.
Definition le (x y : float) : bool := SFleb x y.

(** The binary64 value nearest to the integer [z] (ties to even);
    an infinity when [z] is out of range. *)
Definition of_Z (z : Z) : float := binary_normalize prec emax z 0 false.

Definition is_nan (x : float) : bool :=
  match x with S754_nan => true | _ => false end.

(** Position of a float that is not NaN in the order of [<]:
    class (infinities, sign), then exponent, then mantissa. *)
Definition rank (x : float) : option (Z * Z * Z) :=
  match x with
  | S754_nan => None
  | S754_infinity true => Some (-2, 0, 0)
  | S754_infinity false => Some (2, 0, 0)
  | S754_zero _ => Some (0, 0, 0)
  | S754_finite false m e => Some (1, e, Zpos m)
  | S754_finite true m e => Some (-1, - e, Zneg m)
  end.

Definition lex3 (a b : Z * Z * Z) : Prop :=
  let '(a1, a2, a3) := a in
  let '(b1, b2, b3) := b in
  a1 < b1 \/ (a1 = b1 /\ (a2 < b2 \/ (a2 = b2 /\ a3 < b3))).

(** comparison of two ranks, lexicographic *)
Definition cmp3 (a b : Z * Z * Z) : comparison :=
  let '(a1, a2, a3) := a in
  let '(b1, b2, b3) := b in
  match a1 ?= b1 with
  | Eq => match a2 ?= b2 with Eq => a3 ?= b3 | c => c end
  | c => c
  end.

End Float.

Import Float.

(** ** Exceptions *)

Inductive exn : Type :=
| ValueError
| KeyError
| AttributeError
| ZeroDivisionError
| OverflowError
| OtherError (name : string).

(** The result of running a piece of Python: a value, or an exception. *)
Inductive outcome (A : Type) : Type :=
| Ok (a : A)
| Raised (e : exn).
Arguments Ok {A} a.
Arguments Raised {A} e.

(** [float(z)] for a Python int [z]: OverflowError, "int too large to
    convert to float", when the nearest double is not finite. *)
Definition float_of_int (z : Z) : outcome float :=
  match of_Z z with
  | S754_infinity _ => Raised OverflowError
  | f => Ok f
  end.

(** ** Python dicts: association lists in insertion order *)

Definition dict (V : Type) : Type := list (string * V).

Fixpoint dict_get {V} (d : dict V) (k : string) : option V :=
  match d with
  | [] => None
  | (k', v) :: d' => if String.eqb k k' then Some v else dict_get d' k
  end.

(** [d[k] = v]: overwrite in place, or append a new key *)
Fixpoint dict_set {V} (d : dict V) (k : string) (v : V) : dict V :=
  match d with
  | [] => [(k, v)]
  | (k', v') :: d' =>
      if String.eqb k k' then (k', v) :: d' else (k', v') :: dict_set d' k v
  end.

Definition dict_keys {V} (d : dict V) : list string := map fst d.

(** the invariant of a dict: no key occurs twice *)
Definition dict_wf {V} (d : dict V) : Prop := NoDup (dict_keys d).

(** [range(lo, hi)] *)
Definition range (lo hi : Z) : list Z :=
  map (fun i => lo + Z.of_nat i) (seq 0 (Z.to_nat (hi - lo))).

(** ** The external libraries *)

Module GaussianHMM.

(** The constructor arguments of [hmmlearn.hmm.GaussianHMM] the program
    sets. *)
Record params : Type := mk {
  n_components : Z;
  covariance_type : string;
  n_iter : Z;
  random_state : option Z
}.

(** [GaussianHMM(n_components=n)]: every other argument at hmmlearn's
    default, in particular [random_state=None]. *)
Definition new (n : Z) : params := mk n "diag" 10 None.

End GaussianHMM.

(** What the program calls and does not define. [hmm_fit] reads and
    advances the global numpy random generator; [KFold_split] takes the
    number of samples and gives the (train, test) index lists of
    [KFold().split]. *)
Class Backend : Type := {
  Row : Type;
  Theta : Type;
  Rng : Type;
  hmm_fit : GaussianHMM.params -> list Row -> list Z -> Rng -> outcome Theta * Rng;
  hmm_score : GaussianHMM.params -> Theta -> list Row -> list Z -> outcome float;
  hmm_n_features : Theta -> Z;
  np_log : Z -> float;
  KFold_split : nat -> outcome (list (list nat * list nat));
  combine_sequences : list nat -> list (list Row) -> outcome (list Row * list Z)
}.

(** The lines [base_model] prints in verbose mode. *)
Inductive line : Type :=
| ModelCreated (word : string) (num_states : Z)
| Failure (word : string) (num_states : Z).

Inductive event : Type :=
| EvFit (h : GaussianHMM.params)
| EvSplit
| EvPrint (l : line).

Section Program.

Context {B : Backend}.

(** A fitted model: [fit] returns the estimator itself. *)
Record Model : Type := mkModel {
  hyper : GaussianHMM.params;
  theta : Theta
}.

Definition n_features (m : Model) : Z := hmm_n_features (theta m).

Record World : Type := mkWorld {
  rng : Rng;
  trace : list event
}.

(** ** The monad of the program: state that survives exceptions *)

Definition M (A : Type) : Type := World -> outcome A * World.

Definition ret {A} (a : A) : M A := fun w => (Ok a, w).

Definition bind {A C} (m : M A) (k : A -> M C) : M C :=
  fun w =>
    match m w with
    | (Ok a, w') => k a w'
    | (Raised e, w') => (Raised e, w')
    end.

Definition raise {A} (e : exn) : M A := fun w => (Raised e, w).

Definition lift {A} (o : outcome A) : M A := fun w => (o, w).

(** [try: m  except: h] with a bare [except] *)
Definition try_except {A} (m : M A) (h : M A) : M A :=
  fun w =>
    match m w with
    | (Ok a, w') => (Ok a, w')
    | (Raised _, w') => h w'
    end.

Definition emit (e : event) : M unit :=
  fun w => (Ok tt, mkWorld (rng w) (trace w ++ [e])).

Definition print (l : line) : M unit := emit (EvPrint l).

End Program.

Notation "x <- m ;; k" := (bind m (fun x => k))
  (at level 61, m at next level, right associativity).
Notation "' p <- m ;; k" := (bind m (fun x => match x with p => k end))
  (at level 61, p pattern, m at next level, right associativity).
Notation "m ;;; k" := (bind m (fun _ => k))
  (at level 61, right associativity).

Section Loops.

Context {B : Backend}.

(** [for x in xs: s = body(s, x)]; an exception leaves the loop. *)
Fixpoint for_each {A S : Type} (xs : list A) (body : S -> A -> M S) (s : S) : M S :=
  match xs with
  | [] => ret s
  | x :: xs' => s' <- body s x ;; for_each xs' body s'
  end.

(** [GaussianHMM(...).fit(X, lengths)] *)
Definition fit (h : GaussianHMM.params) (X : list Row) (lengths : list Z) : M Model :=
  fun w =>
    let '(r, g) := hmm_fit h X lengths (rng w) in
    let w' := mkWorld g (trace w ++ [EvFit h]) in
    match r with
    | Ok th => (Ok (mkModel h th), w')
    | Raised e => (Raised e, w')
    end.

(** [model.score(X, lengths)] *)
Definition score (model : Model) (X : list Row) (lengths : list Z) : outcome float :=
  hmm_score (hyper model) (theta model) X lengths.

(** [KFold().split(sequences)] *)
Definition split (n_samples : nat) : M (list (list nat * list nat)) :=
  emit EvSplit ;;; lift (KFold_split n_samples).

(** [k * x] for an int [k] and a float [x] *)
Definition int_mul_float (k : Z) (x : float) : outcome float :=
  match float_of_int k with
  | Ok kf => Ok (mul kf x)
  | Raised e => Raised e
  end.

(** An accumulator such as [sumLogL]: the int literal [0] it starts
    from, or the float it is after an addition. *)
Inductive accum : Type :=
| IntZero
| Float (f : float).

(** [acc + x] for a float [x] *)
Definition accum_add (acc : accum) (x : float) : float :=
  match acc with
  | IntZero => add zero x
  | Float f => add f x
  end.

(** [acc / k] for an int [k]. A zero divisor raises ZeroDivisionError;
    [0 / k] is a zero of the sign of [k]; a float is divided by
    [float(k)]. In this program a float accumulator never meets a zero
    divisor: 3 is not 0, and [len(self.words) - 1] is 0 only when there
    is no other word to add a score for. *)
Definition accum_truediv (acc : accum) (k : Z) : outcome float :=
  if k =? 0 then Raised ZeroDivisionError
  else
    match acc with
    | IntZero => Ok (S754_zero (k <? 0))
    | Float f =>
        match float_of_int k with
        | Raised e => Raised e
        | Ok kf => Ok (div f kf)
        end
    end.

End Loops.

(** ** my_model_selectors.py *)

Module ModelSelector.
Section ModelSelector.

Context {B : Backend}.

(** One sequence: the feature vectors of one example of a word. *)
Definition Sequence : Type := list Row.

Record t : Type := mk {
  words : dict (list Sequence);
  hwords : dict (list Row * list Z);
  sequences : list Sequence;
  X : list Row;
  lengths : list Z;
  this_word : string;
  n_constant : Z;
  min_n_components : Z;
  max_n_components : Z;
  random_state : Z;
  verbose : bool
}.

(** [__init__]: the two subscripts raise KeyError for an unknown word. *)
Definition init (all_word_sequences : dict (list Sequence))
    (all_word_Xlengths : dict (list Row * list Z)) (this_word : string)
    (n_constant min_n_components max_n_components random_state : Z)
    (verbose : bool) : outcome t :=
  match dict_get all_word_sequences this_word with
  | None => Raised KeyError
  | Some seqs =>
      match dict_get all_word_Xlengths this_word with
      | None => Raised KeyError
      | Some (X, lengths) =>
          Ok (mk all_word_sequences all_word_Xlengths seqs X lengths this_word
                n_constant min_n_components max_n_components random_state verbose)
      end
  end.

(** the estimator [base_model] builds for [num_states] *)
Definition base_params (self : t) (num_states : Z) : GaussianHMM.params :=
  GaussianHMM.mk num_states "diag" 1000 (Some (random_state self)).

Definition base_model (self : t) (num_states : Z) : M (option Model) :=
  try_except
    (hmm_model <- fit (base_params self num_states) (X self) (lengths self) ;;
     (if verbose self then print (ModelCreated (this_word self) num_states) else ret tt) ;;;
     ret (Some hmm_model))
    ((if verbose self then print (Failure (this_word self) num_states) else ret tt) ;;;
     ret None).

(** [range(self.min_n_components, self.max_n_components + 1)] *)
Definition candidates (self : t) : list Z :=
  range (min_n_components self) (max_n_components self + 1).

End ModelSelector.
End ModelSelector.

Module SelectorConstant.
Section SelectorConstant.
Context {B : Backend}.

Definition select (self : ModelSelector.t) : M (option Model) :=
  let best_num_components := ModelSelector.n_constant self in
  ModelSelector.base_model self best_num_components.

End SelectorConstant.
End SelectorConstant.

Module SelectorBIC.
Section SelectorBIC.
Context {B : Backend}.
Import ModelSelector.

(** [p = n** + 2 * n * model.n_features - 1]: Python reads [n ** +2]
    as a power with the exponent [+2] and multiplies it by [n] and by
    the feature count. *)
Definition free_parameters (n d : Z) : Z := n ^ 2 * n * d - 1.

(** the body of the [try] up to the comparison: the BIC of candidate [n] *)
Definition criterion (self : t) (n : Z) : M float :=
  model <- fit (GaussianHMM.new n) (X self) (lengths self) ;;
  logL <- lift (score model (X self) (lengths self)) ;;
  let p := free_parameters n (n_features model) in
  a <- lift (int_mul_float (-2) logL) ;;
  b <- lift (int_mul_float p (np_log (Z.of_nat (List.length (X self))))) ;;
  ret (add a b).

(** one turn of the loop on [(min_BIC, best_num_components)] *)
Definition step (self : t) (st : float * Z) (n : Z) : M (float * Z) :=
  let '(min_BIC, best_num_components) := st in
  try_except
    (BIC <- criterion self n ;;
     if lt BIC min_BIC then ret (BIC, n) else ret (min_BIC, best_num_components))
    (ret (min_BIC, best_num_components)).

(** the loop: the final [(min_BIC, best_num_components)] *)
Definition search (self : t) : M (float * Z) :=
  for_each (candidates self) (step self) (inf, 0).

Definition select (self : t) : M (option Model) :=
  st <- search self ;;
  base_model self (snd st).

End SelectorBIC.
End SelectorBIC.

Module SelectorDIC.
Section SelectorDIC.
Context {B : Backend}.
Import ModelSelector.

(** the inner loop over [self.words]: the sum of the scores of [model] on
    the data of every other word *)
Definition others (self : t) (model : Model) : M accum :=
  for_each (dict_keys (words self))
    (fun sumLogL word =>
       if negb (String.eqb word (this_word self)) then
         match dict_get (hwords self) word with
         | None => raise KeyError
         | Some (X_temp, lengths_temp) =>
             logL_temp <- lift (score model X_temp lengths_temp) ;;
             ret (Float (accum_add sumLogL logL_temp))
         end
       else ret sumLogL)
    IntZero.

(** the body of the [try] up to the comparison: the DIC of candidate [n] *)
Definition criterion (self : t) (n : Z) : M float :=
  model <- fit (GaussianHMM.new n) (X self) (lengths self) ;;
  logL <- lift (score model (X self) (lengths self)) ;;
  sumLogL <- others self model ;;
  avgLogL <- lift (accum_truediv sumLogL (Z.of_nat (List.length (words self)) - 1)) ;;
  ret (sub logL avgLogL).

(** one turn of the loop on [(max_DIC, best_num_components)] *)
Definition step (self : t) (st : float * Z) (n : Z) : M (float * Z) :=
  let '(max_DIC, best_num_components) := st in
  try_except
    (DIC <- criterion self n ;;
     if gt DIC max_DIC then ret (DIC, n) else ret (max_DIC, best_num_components))
    (ret (max_DIC, best_num_components)).

Definition search (self : t) : M (float * Z) :=
  for_each (candidates self) (step self) (neg_inf, 0).

Definition select (self : t) : M (option Model) :=
  st <- search self ;;
  base_model self (snd st).

End SelectorDIC.
End SelectorDIC.

Module SelectorCV.
Section SelectorCV.
Context {B : Backend}.
Import ModelSelector.

(** the body of the loop over the folds: the held-out score of one fold *)
Definition fold_logL (self : t) (n : Z) (fold : list nat * list nat) : M float :=
  let '(cv_train_idx, cv_test_idx) := fold in
  '(X_train, lengths_train) <- lift (combine_sequences cv_train_idx (sequences self)) ;;
  model <- fit (GaussianHMM.new n) X_train lengths_train ;;
  '(X_test, lengths_test) <- lift (combine_sequences cv_test_idx (sequences self)) ;;
  lift (score model X_test lengths_test).

(** the loop over the folds, on [logL_sum] *)
Definition sum_folds (self : t) (n : Z) (folds : list (list nat * list nat)) : M accum :=
  for_each folds
    (fun logL_sum fold =>
       logL <- fold_logL self n fold ;;
       ret (Float (accum_add logL_sum logL)))
    IntZero.

(** the body of the [try] up to the comparison: [logL_avg] of candidate [n] *)
Definition criterion (self : t) (n : Z) : M float :=
  folds <- split (List.length (sequences self)) ;;
  logL_sum <- sum_folds self n folds ;;
  lift (accum_truediv logL_sum 3).

(** one turn of the loop on [(best_avg, best_num_components)] *)
Definition step (self : t) (st : float * Z) (n : Z) : M (float * Z) :=
  let '(best_avg, best_num_components) := st in
  try_except
    (logL_avg <- criterion self n ;;
     if gt logL_avg best_avg then ret (logL_avg, n) else ret (best_avg, best_num_components))
    (ret (best_avg, best_num_components)).

Definition search (self : t) : M (float * Z) :=
  if (3 <=? List.length (sequences self))%nat then
    for_each (candidates self) (step self) (neg_inf, 0)
  else ret (neg_inf, 3).

Definition select (self : t) : M (option Model) :=
  st <- search self ;;
  base_model self (snd st).

End SelectorCV.
End SelectorCV.

(** ** my_recognizer.py *)

Module Recognizer.
Section Recognizer.
Context {B : Backend}.

(** [model.score(X, lengths)] for a value of [models]: a word whose
    training failed is stored with [None], which has no [score]. *)
Definition score_entry (model : option Model) (X : list Row) (lengths : list Z)
  : outcome float :=
  match model with
  | None => Raised AttributeError
  | Some m => score m X lengths
  end.

(** the [try] ... [except] around the call *)
Definition try_score (model : option Model) (X : list Row) (lengths : list Z) : float :=
  match score_entry model X lengths with
  | Ok logL => logL
  | Raised _ => neg_inf
  end.

(** one turn of the inner loop on [(logL_max, best_word, prob_dict)] *)
Definition word_step (X : list Row) (lengths : list Z)
    (st : float * string * dict float) (entry : string * option Model)
  : float * string * dict float :=
  let '(logL_max, best_word, prob_dict) := st in
  let '(word, model) := entry in
  let logL := try_score model X lengths in
  let '(logL_max, best_word) :=
    if gt logL logL_max then (logL, word) else (logL_max, best_word) in
  (logL_max, best_word, dict_set prob_dict word logL).

(** one turn of the outer loop on [(probabilities, guesses, best_word)];
    [logL_max] and [prob_dict] start afresh, [best_word] does not.
    In [for key, value in X_all.items()] the subscript [X_all[key]] is
    [value]. *)
Definition item_step (models : dict (option Model))
    (st : list (dict float) * list string * string)
    (item : Z * (list Row * list Z))
  : list (dict float) * list string * string :=
  let '(probabilities, guesses, best_word) := st in
  let '(key, (X, lengths)) := item in
  let '(_, best_word, prob_dict) :=
    fold_left (word_step X lengths) models (neg_inf, best_word, []) in
  (probabilities ++ [prob_dict], guesses ++ [best_word], best_word).

(** [X_all] is [test_set.get_all_Xlengths()]. *)
Definition recognize (models : dict (option Model))
    (X_all : list (Z * (list Row * list Z)))
  : list (dict float) * list string :=
  let '(probabilities, guesses, _) :=
    fold_left (item_step models) X_all ([], [], "") in
  (probabilities, guesses).

End Recognizer.
End Recognizer.

(** ** Properties the specification is stated with *)

(** [w] is the label with the maximal value of [prob], the first one in
    the order of the dict when several labels have it: every label
    before is strictly below, every label after is not above. *)
Definition max_first (prob : dict float) (w : string) : Prop :=
  exists pre v post,
    prob = pre ++ (w, v) :: post /\
    (forall w' v', In (w', v') pre -> lt v' v = true) /\
    (forall w' v', In (w', v') post -> le v' v = true).

(** The free-parameter count of the specification. *)
Definition spec_free_parameters (n d : Z) : Z := n * n + 2 * n * d - 1.

(** ** The three search loops as one selection over the candidates' outcomes *)

Section Search.

Context {B : Backend}.

(** [better c best]: the test of the loop, [<] for BIC and [>] for DIC
    and CV. *)
Variable better : float -> float -> bool.
Variable criterion : Z -> M float.

(** the common shape of the three loop bodies *)
Definition step_of (st : float * Z) (n : Z) : M (float * Z) :=
  try_except
    (c <- criterion n ;; if better c (fst st) then ret (c, n) else ret st)
    (ret st).

(** what each candidate gives, in the order and in the states the loop
    runs them *)
Fixpoint outcomes (ns : list Z) (w : World) : list (Z * outcome float) :=
  match ns with
  | [] => []
  | n :: ns' => (n, fst (criterion n w)) :: outcomes ns' (snd (criterion n w))
  end.

(** the state after the loop *)
Fixpoint after (ns : list Z) (w : World) : World :=
  match ns with
  | [] => w
  | n :: ns' => after ns' (snd (criterion n w))
  end.

(** the selection the loop makes among the outcomes *)
Fixpoint pick (rs : list (Z * outcome float)) (st : float * Z) : float * Z :=
  match rs with
  | [] => st
  | (n, Ok c) :: rs' => pick rs' (if better c (fst st) then (c, n) else st)
  | (n, Raised _) :: rs' => pick rs' st
  end.

End Search.

(** The selection as the specification has it: the optimum among the candidates that
    gave a value, and the sentinel 0 when none did. *)
Definition spec_choice (better : float -> float -> bool)
    (rs : list (Z * outcome float)) (best : Z) : Prop :=
  ((exists n c, In (n, Ok c) rs) ->
   exists c, In (best, Ok c) rs /\
             forall n c', In (n, Ok c') rs -> better c' c = false) /\
  ((forall n c, ~ In (n, Ok c) rs) -> best = 0).

(** The selection of the code: only a value that is better than the
    initial one, [start], can be chosen. *)
Definition sentinel_choice (better : float -> float -> bool) (start : float)
    (rs : list (Z * outcome float)) (best : Z) : Prop :=
  ((exists n c, In (n, Ok c) rs /\ better c start = true) ->
   exists c, In (best, Ok c) rs /\ better c start = true /\
             forall n c', In (n, Ok c') rs -> better c' c = false) /\
  ((forall n c, In (n, Ok c) rs -> better c start = false) -> best = 0).

(** ** The recognizer's loops as pure functions *)

Section RecognizerSpec.

Context {B : Backend}.

(** the scores of one item, label by label *)
Definition scores_of (models : dict (option Model)) (X : list Row) (lengths : list Z)
  : dict float :=
  map (fun e => (fst e, Recognizer.try_score (snd e) X lengths)) models.

(** [(logL_max, best_word)] after the labels [ps] *)
Definition best_of (ps : dict float) (st : float * string) : float * string :=
  fold_left (fun st e => if gt (snd e) (fst st) then (snd e, fst e) else st) ps st.

(** the guesses for the items, from the [best_word] left by the items
    before *)
Fixpoint guesses_from (models : dict (option Model))
    (items : list (Z * (list Row * list Z))) (best_word : string) : list string :=
  match items with
  | [] => []
  | (_, (X, lengths)) :: items' =>
      let g := snd (best_of (scores_of models X lengths) (neg_inf, best_word)) in
      g :: guesses_from models items' g
  end.

End RecognizerSpec.

(** [w], with the value [v], is the first label of maximal value *)
Definition max_first_val (prob : dict float) (w : string) (v : float) : Prop :=
  exists pre post,
    prob = pre ++ (w, v) :: post /\
    (forall w' v', In (w', v') pre -> lt v' v = true) /\
    (forall w' v', In (w', v') post -> le v' v = true).

(** What the inner loop knows after the labels [seen]: nothing scored
    above [-inf] and the incoming [best_word] still stands, or
    [best_word] is the first label of maximal score. *)
Definition guess_inv (bw0 : string) (seen : dict float) (st : float * string) : Prop :=
  (st = (neg_inf, bw0) /\ forall w v, In (w, v) seen -> gt v neg_inf = false) \/
  (max_first_val seen (snd st) (fst st) /\ gt (fst st) neg_inf = true).

(** ** Cross-validation as the specification words it *)

Module SpecCV.
Section SpecCV.
Context {B : Backend}.
Import ModelSelector.

(** a fold that raises is skipped and the folds after it still count *)
Definition sum_folds (self : t) (n : Z) (folds : list (list nat * list nat)) : M accum :=
  for_each folds
    (fun logL_sum fold =>
       try_except
         (logL <- SelectorCV.fold_logL self n fold ;;
          ret (Float (accum_add logL_sum logL)))
         (ret logL_sum))
    IntZero.

Definition criterion (self : t) (n : Z) : M float :=
  folds <- split (List.length (sequences self)) ;;
  logL_sum <- sum_folds self n folds ;;
  lift (accum_truediv logL_sum 3).

End SpecCV.
End SpecCV.

(** [0 + l1 + ... + lk] as the loops add it up *)
Definition sum_from (acc : accum) (ls : list float) : accum :=
  fold_left (fun a l => Float (accum_add a l)) ls acc.

(** ** The DIC as the specification words it *)

Module SpecDIC.
Section SpecDIC.
Context {B : Backend}.
Import ModelSelector.

(** every label but this one *)
Definition other_words (self : t) : list string :=
  filter (fun word => negb (String.eqb word (this_word self))) (dict_keys (words self)).

(** the scores of [model] on the data of the words [ws], or the first
    failure *)
Fixpoint scores_on (self : t) (model : Model) (ws : list string) : outcome (list float) :=
  match ws with
  | [] => Ok []
  | word :: ws' =>
      match dict_get (hwords self) word with
      | None => Raised KeyError
      | Some (X_other, lengths_other) =>
          match score model X_other lengths_other with
          | Raised e => Raised e
          | Ok l =>
              match scores_on self model ws' with
              | Ok ls => Ok (l :: ls)
              | Raised e => Raised e
              end
          end
      end
  end.

(** [logL_self - sum(logL_others) / (number of labels - 1)] for the
    outcome [r] of the training; a failure at any step is the result *)
Definition value (self : t) (n : Z) (r : outcome Theta) : outcome float :=
  match r with
  | Raised e => Raised e
  | Ok th =>
      let model := mkModel (GaussianHMM.new n) th in
      match score model (X self) (lengths self) with
      | Raised e => Raised e
      | Ok logL =>
          match scores_on self model (other_words self) with
          | Raised e => Raised e
          | Ok ls =>
              match accum_truediv (sum_from IntZero ls)
                      (Z.of_nat (List.length (words self)) - 1) with
              | Raised e => Raised e
              | Ok avgLogL => Ok (sub logL avgLogL)
              end
          end
      end
  end.

End SpecDIC.
End SpecDIC.

(** the scores of the folds of candidate [n] when every fold succeeds, run
    one after the other from the state [w] *)
Fixpoint fold_scores {B : Backend} (self : ModelSelector.t) (n : Z)
    (folds : list (list nat * list nat)) (w : World) : option (list float) :=
  match folds with
  | [] => Some []
  | fold :: folds' =>
      match SelectorCV.fold_logL self n fold w with
      | (Ok l, w') =>
          match fold_scores self n folds' w' with
          | Some ls => Some (l :: ls)
          | None => None
          end
      | (Raised _, _) => None
      end
  end.

(** ** A small backend for the examples *)

Module Toy.

(** [combine_sequences] of asl_utils: the rows of the chosen sequences
    one after the other, and their lengths *)
Fixpoint combine {R : Type} (idx : list nat) (seqs : list (list R))
  : outcome (list R * list Z) :=
  match idx with
  | [] => Ok ([], [])
  | i :: idx' =>
      match nth_error seqs i, combine idx' seqs with
      | Some s, Ok (X, lengths) => Ok (s ++ X, Z.of_nat (List.length s) :: lengths)
      | None, _ => Raised (OtherError "IndexError")
      | _, Raised e => Raised e
      end
  end.

(** three folds of three samples; no split otherwise *)
Definition kfold (n_samples : nat) : outcome (list (list nat * list nat)) :=
  match n_samples with
  | 3%nat => Ok [([1; 2], [0]); ([0; 2], [1]); ([0; 1], [2])]%nat
  | _ => Raised ValueError
  end.

(** [log 1 = 0]; the examples have one row of training data *)
Definition log (z : Z) : float := if z =? 1 then zero else nan.

(** Rows are integers, the random generator is a counter, and a fitted
    model remembers its number of states and the draw it started from.
    A fit with a seed draws nothing; a fit without one takes the next
    draw of the global generator. Fitting fails without states or
    without data. [table] gives the score from the number of states,
    the draw and the rows scored. *)
Definition fit (h : GaussianHMM.params) (X : list Z) (lengths : list Z) (g : nat)
  : outcome (Z * nat) * nat :=
  if (GaussianHMM.n_components h <=? 0) || (match X with [] => true | _ => false end)
  then (Raised ValueError, g)
  else
    match GaussianHMM.random_state h with
    | Some _ => (Ok (GaussianHMM.n_components h, 0%nat), g)
    | None => (Ok (GaussianHMM.n_components h, g), S g)
    end.

Definition backend (table : Z -> nat -> list Z -> outcome float) : Backend :=
  {| Row := Z;
     Theta := Z * nat;
     Rng := nat;
     hmm_fit := fit;
     hmm_score := fun _ th X _ => table (fst th) (snd th) X;
     hmm_n_features := fun _ => 1;
     np_log := log;
     KFold_split := kfold;
     combine_sequences := combine |}.

(** the state a run starts from *)
Definition w0 {table} : @World (backend table) := @mkWorld (backend table) 0%nat [].

End Toy.

(** ** Example runs *)

Module Examples.

Import ModelSelector.

(** One word "CAT" with one sequence of one row; three candidates that
    train, with log-likelihoods -60, -55, -58. *)
Definition cat_table (n : Z) (draw : nat) (X : list Z) : outcome float :=
  match n with
  | 2 => Ok (of_Z (-60))
  | 3 => Ok (of_Z (-55))
  | 4 => Ok (of_Z (-58))
  | _ => Raised ValueError
  end.

Definition cat : @ModelSelector.t (Toy.backend cat_table) :=
  @ModelSelector.mk (Toy.backend cat_table)
    [("CAT", [[7]])] [("CAT", ([7], [1]))] [[7]] [7] [1] "CAT" 3 2 4 14 false.

(** Two words and one candidate, which trains; it scores [-inf] on
    CAT's row and -30 on any other. *)
Definition flat_table (n : Z) (draw : nat) (X : list Z) : outcome float :=
  match X with
  | [7] => Ok neg_inf
  | _ => Ok (of_Z (-30))
  end.

Definition flat : @ModelSelector.t (Toy.backend flat_table) :=
  @ModelSelector.mk (Toy.backend flat_table)
    [("CAT", [[7]]); ("DOG", [[9]])] [("CAT", ([7], [1])); ("DOG", ([9], [1]))]
    [[7]] [7] [1] "CAT" 3 2 2 14 false.

(** Two words; the score depends on the number of states and on the
    rows scored (7 is CAT's row, 9 is DOG's). *)
Definition pets_table (n : Z) (draw : nat) (X : list Z) : outcome float :=
  match n, X with
  | 2, [7] => Ok (of_Z (-10))
  | 2, [9] => Ok (of_Z (-30))
  | 3, [7] => Ok (of_Z (-8))
  | 3, [9] => Ok (of_Z (-12))
  | _, _ => Raised ValueError
  end.

Definition pets : @ModelSelector.t (Toy.backend pets_table) :=
  @ModelSelector.mk (Toy.backend pets_table)
    [("CAT", [[7]]); ("DOG", [[9]])] [("CAT", ([7], [1])); ("DOG", ([9], [1]))]
    [[7]] [7] [1] "CAT" 3 2 3 14 false.

(** Three sequences [1], [2], [3] of one row. With two states the model
    cannot score the fold that holds out [2]; with three states every
    fold scores. *)
Definition folds_table (n : Z) (draw : nat) (X : list Z) : outcome float :=
  match n, X with
  | 2, [1] => Ok (of_Z (-3))
  | 2, [3] => Ok (of_Z (-6))
  | 3, [1] => Ok (of_Z (-30))
  | 3, [2] => Ok (of_Z (-30))
  | 3, [3] => Ok (of_Z (-30))
  | _, _ => Raised ValueError
  end.

Definition three : @ModelSelector.t (Toy.backend folds_table) :=
  @ModelSelector.mk (Toy.backend folds_table)
    [("CAT", [[1]; [2]; [3]])] [("CAT", ([1; 2; 3], [1; 1; 1]))]
    [[1]; [2]; [3]] [1; 2; 3] [1; 1; 1] "CAT" 3 2 3 14 false.

(** The same word with two sequences only. *)
Definition two : @ModelSelector.t (Toy.backend folds_table) :=
  @ModelSelector.mk (Toy.backend folds_table)
    [("CAT", [[1]; [2]])] [("CAT", ([1; 2], [1; 1]))]
    [[1]; [2]] [1; 2] [1; 1] "CAT" 3 2 3 14 true.

(** The score follows the draw the fit started from: 0, -1, -2, 0, ... *)
Definition drawn_table (n : Z) (draw : nat) (X : list Z) : outcome float :=
  Ok (of_Z (- Z.of_nat (draw mod 3))).

Definition drawn : @ModelSelector.t (Toy.backend drawn_table) :=
  @ModelSelector.mk (Toy.backend drawn_table)
    [("CAT", [[7]])] [("CAT", ([7], [1]))] [[7]] [7] [1] "CAT" 3 2 3 14 false.

(** Recognition: the model of "A" has two states and the model of "B"
    three; both score the first item and fail on the second. *)
Definition ab_table (n : Z) (draw : nat) (X : list Z) : outcome float :=
  match n, X with
  | 2, [1] => Ok (of_Z (-5))
  | 3, [1] => Ok (of_Z (-3))
  | _, _ => Raised ValueError
  end.

Definition model_A : @Model (Toy.backend ab_table) :=
  @mkModel (Toy.backend ab_table) (GaussianHMM.mk 2 "diag" 1000 (Some 14)) (2, 0%nat).

Definition model_B : @Model (Toy.backend ab_table) :=
  @mkModel (Toy.backend ab_table) (GaussianHMM.mk 3 "diag" 1000 (Some 14)) (3, 0%nat).

Definition ab_models : dict (option (@Model (Toy.backend ab_table))) :=
  [("A", Some model_A); ("B", Some model_B)].

Definition ab_items : list (Z * (list Z * list Z)) :=
  [(0, ([1], [1])); (1, ([2], [1]))].

End Examples.

(** ** More example runs *)

Module MoreExamples.

Import ModelSelector.

(** "CAT" with [max_n_components] below [min_n_components] *)
Definition no_candidate : @ModelSelector.t (Toy.backend Examples.cat_table) :=
  @ModelSelector.mk (Toy.backend Examples.cat_table)
    [("CAT", [[7]])] [("CAT", ([7], [1]))] [[7]] [7] [1] "CAT" 3 5 4 14 false.

(** Four sequences, which the example backend cannot split. *)
Definition four : @ModelSelector.t (Toy.backend Examples.folds_table) :=
  @ModelSelector.mk (Toy.backend Examples.folds_table)
    [("CAT", [[1]; [2]; [3]; [4]])] [("CAT", ([1; 2; 3; 4], [1; 1; 1; 1]))]
    [[1]; [2]; [3]; [4]] [1; 2; 3; 4] [1; 1; 1; 1] "CAT" 3 2 3 14 false.

(** Two words, the second without an entry in [hwords]. *)
Definition orphan : @ModelSelector.t (Toy.backend Examples.pets_table) :=
  @ModelSelector.mk (Toy.backend Examples.pets_table)
    [("CAT", [[7]]); ("DOG", [[9]])] [("CAT", ([7], [1]))]
    [[7]] [7] [1] "CAT" 3 2 3 14 false.

(** Two candidates with the same log-likelihood, hence the same BIC when
    the penalty vanishes ([log 1 = 0]). *)
Definition even_table (n : Z) (draw : nat) (X : list Z) : outcome float :=
  Ok (of_Z (-7)).

Definition even : @ModelSelector.t (Toy.backend even_table) :=
  @ModelSelector.mk (Toy.backend even_table)
    [("CAT", [[7]]); ("DOG", [[9]])] [("CAT", ([7], [1])); ("DOG", ([9], [1]))]
    [[7]] [7] [1] "CAT" 3 2 3 14 true.

(** Three sequences; every fold of every candidate scores -30, so the
    candidates with two and with three states have the same average. *)
Definition tied_table (n : Z) (draw : nat) (X : list Z) : outcome float :=
  Ok (of_Z (-30)).

Definition tied : @ModelSelector.t (Toy.backend tied_table) :=
  @ModelSelector.mk (Toy.backend tied_table)
    [("CAT", [[1]; [2]; [3]])] [("CAT", ([1; 2; 3], [1; 1; 1]))]
    [[1]; [2]; [3]] [1; 2; 3] [1; 1; 1] "CAT" 3 2 3 14 false.

(** the models of a recognizer without any label *)
Definition no_models : dict (option (@Model (Toy.backend Examples.ab_table))) := [].

End MoreExamples.

(** ** Computations whose result does not depend on the state *)

(** [m] returns, or raises, the same thing from any two states *)
Definition steady {B : Backend} {A : Type} (m : M A) : Prop :=
  forall w w', fst (m w) = fst (m w').

Module Steady.

(** A backend whose fit never looks at the global generator, though it
    advances it. *)
Definition fit (h : GaussianHMM.params) (X : list Z) (lengths : list Z) (g : nat)
  : outcome (Z * nat) * nat :=
  if (GaussianHMM.n_components h <=? 0) || (match X with [] => true | _ => false end)
  then (Raised ValueError, g)
  else (Ok (GaussianHMM.n_components h, 0%nat), S g).

Definition backend (table : Z -> nat -> list Z -> outcome float) : Backend :=
  {| Row := Z;
     Theta := Z * nat;
     Rng := nat;
     hmm_fit := fit;
     hmm_score := fun _ th X _ => table (fst th) (snd th) X;
     hmm_n_features := fun _ => 1;
     np_log := Toy.log;
     KFold_split := Toy.kfold;
     combine_sequences := Toy.combine |}.

(** the word "CAT" of the first example on this backend *)
Definition cat : @ModelSelector.t (backend Examples.cat_table) :=
  @ModelSelector.mk (backend Examples.cat_table)
    [("CAT", [[7]])] [("CAT", ([7], [1]))] [[7]] [7] [1] "CAT" 3 2 4 14 false.

Definition w0 : @World (backend Examples.cat_table) :=
  @mkWorld (backend Examples.cat_table) 0%nat [].

Definition w5 : @World (backend Examples.cat_table) :=
  @mkWorld (backend Examples.cat_table) 5%nat [EvSplit].

End Steady.

(** ** A word with two features and thirty frames *)

Module Wide.

(** [log 30] to the nearest double, [0x1.b35a6f90bd69bp+1] *)
Definition log30 : float := S754_finite false 7658815630333595 (-51).

Definition log (z : Z) : float := if z =? 30 then log30 else nan.

(** rows of two features *)
Definition fit (h : GaussianHMM.params) (X : list (Z * Z)) (lengths : list Z) (g : nat)
  : outcome (Z * nat) * nat :=
  if (GaussianHMM.n_components h <=? 0) || (match X with [] => true | _ => false end)
  then (Raised ValueError, g)
  else
    match GaussianHMM.random_state h with
    | Some _ => (Ok (GaussianHMM.n_components h, 0%nat), g)
    | None => (Ok (GaussianHMM.n_components h, g), S g)
    end.

(** log-likelihood -100 with two states and -80 with three *)
Definition table (n : Z) : outcome float :=
  match n with
  | 2 => Ok (of_Z (-100))
  | 3 => Ok (of_Z (-80))
  | _ => Raised ValueError
  end.

Definition backend : Backend :=
  {| Row := Z * Z;
     Theta := Z * nat;
     Rng := nat;
     hmm_fit := fit;
     hmm_score := fun _ th _ _ => table (fst th);
     hmm_n_features := fun _ => 2;
     np_log := log;
     KFold_split := Toy.kfold;
     combine_sequences := Toy.combine |}.

Definition rows : list (Z * Z) := repeat (7, 9) 30.

Definition word : @ModelSelector.t backend :=
  @ModelSelector.mk backend
    [("CAT", [rows])] [("CAT", (rows, [30]))] [rows] rows [30] "CAT" 3 2 3 14 false.

Definition w0 : @World backend := @mkWorld backend 0%nat [].

(** [-2 * logL + p * log N] with the count of the specification *)
Definition spec_BIC (n d : Z) (logL logN : float) : float :=
  add (mul (of_Z (-2)) logL) (mul (of_Z (spec_free_parameters n d)) logN).

End Wide.
(** * Theorems *)

(** ** The order of the floats *)

Module FloatOrder.

Lemma compare_rank (x y : float) :
  SFcompare x y =
  match rank x, rank y with
  | Some a, Some b => Some (cmp3 a b)
  | _, _ => None
  end.
Proof.
  destruct x as [sx | sx | | sx mx ex], y as [sy | sy | | sy my ey];
    try destruct sx; try destruct sy; try reflexivity.
  - cbn [SFcompare rank cmp3]. rewrite Z.compare_refl.
    rewrite Z.compare_opp, (Z.compare_antisym ex ey).
    destruct (ex ?= ey); reflexivity.
Qed.

Lemma cmp3_lt (a b : Z * Z * Z) : cmp3 a b = Lt <-> lex3 a b.
Proof.
  destruct a as [[a1 a2] a3], b as [[b1 b2] b3]. unfold cmp3, lex3.
  destruct (Z.compare_spec a1 b1), (Z.compare_spec a2 b2), (Z.compare_spec a3 b3);
    split; intros; try discriminate; try reflexivity; try lia.
Qed.

Lemma cmp3_eq (a b : Z * Z * Z) : cmp3 a b = Eq <-> a = b.
Proof.
  destruct a as [[a1 a2] a3], b as [[b1 b2] b3]. unfold cmp3.
  destruct (Z.compare_spec a1 b1), (Z.compare_spec a2 b2), (Z.compare_spec a3 b3);
    split; intros H2; try discriminate; try reflexivity;
    try (injection H2; intros; lia); try (subst; reflexivity).
Qed.

Lemma cmp3_gt (a b : Z * Z * Z) : cmp3 a b = Gt <-> lex3 b a.
Proof.
  destruct a as [[a1 a2] a3], b as [[b1 b2] b3]. unfold cmp3, lex3.
  destruct (Z.compare_spec a1 b1), (Z.compare_spec a2 b2), (Z.compare_spec a3 b3);
    split; intros; try discriminate; try reflexivity; try lia.
Qed.

Lemma lex3_trans (a b c : Z * Z * Z) : lex3 a b -> lex3 b c -> lex3 a c.
Proof.
  destruct a as [[a1 a2] a3], b as [[b1 b2] b3], c as [[c1 c2] c3].
  unfold lex3. lia.
Qed.

Lemma lex3_irrefl (a : Z * Z * Z) : ~ lex3 a a.
Proof. destruct a as [[a1 a2] a3]. unfold lex3. lia. Qed.

Lemma lt_rank (x y : float) :
  lt x y = true <-> exists a b, rank x = Some a /\ rank y = Some b /\ lex3 a b.
Proof.
  unfold lt, SFltb. rewrite compare_rank.
  destruct (rank x) as [a|], (rank y) as [b|].
  - split.
    + intros H. exists a, b. repeat split. apply cmp3_lt.
      destruct (cmp3 a b); congruence.
    + intros (a' & b' & Ha & Hb & L). injection Ha as <-. injection Hb as <-.
      apply cmp3_lt in L. now rewrite L.
  - split; [discriminate | intros (a' & b' & _ & Hb & _); discriminate].
  - split; [discriminate | intros (a' & b' & Ha & _ & _); discriminate].
  - split; [discriminate | intros (a' & b' & Ha & _ & _); discriminate].
Qed.

Lemma le_rank (x y : float) :
  le x y = true <->
  exists a b, rank x = Some a /\ rank y = Some b /\ (lex3 a b \/ a = b).
Proof.
  unfold le, SFleb. rewrite compare_rank.
  destruct (rank x) as [a|], (rank y) as [b|].
  - split.
    + intros H. exists a, b. repeat split.
      destruct (cmp3 a b) eqn:E; try discriminate.
      * right. now apply cmp3_eq.
      * left. now apply cmp3_lt.
    + intros (a' & b' & Ha & Hb & L). injection Ha as <-. injection Hb as <-.
      destruct L as [L | L].
      * apply cmp3_lt in L. now rewrite L.
      * apply cmp3_eq in L. now rewrite L.
  - split; [discriminate | intros (a' & b' & _ & Hb & _); discriminate].
  - split; [discriminate | intros (a' & b' & Ha & _ & _); discriminate].
  - split; [discriminate | intros (a' & b' & Ha & _ & _); discriminate].
Qed.

Lemma rank_nan (x : float) : rank x = None <-> is_nan x = true.
Proof. destruct x as [s | s | | s m e]; try destruct s; simpl; split; congruence. Qed.

Lemma lt_trans (x y z : float) : lt x y = true -> lt y z = true -> lt x z = true.
Proof.
  rewrite !lt_rank. intros (a & b & Ha & Hb & L1) (b' & c & Hb' & Hc & L2).
  rewrite Hb in Hb'. injection Hb' as <-.
  exists a, c. repeat split; trivial. eapply lex3_trans; eauto.
Qed.

Lemma lt_irrefl (x : float) : lt x x = false.
Proof.
  destruct (lt x x) eqn:E; trivial.
  apply lt_rank in E. destruct E as (a & b & Ha & Hb & L).
  rewrite Ha in Hb. injection Hb as <-. now apply lex3_irrefl in L.
Qed.

(** on floats that are not NaN, [<=] is the negation of [>] *)
Lemma not_lt_le (x y : float) :
  is_nan x = false -> is_nan y = false -> lt y x = false -> le x y = true.
Proof.
  intros Nx Ny H. apply le_rank.
  destruct (rank x) as [a|] eqn:Ha.
  2:{ apply rank_nan in Ha. congruence. }
  destruct (rank y) as [b|] eqn:Hb.
  2:{ apply rank_nan in Hb. congruence. }
  exists a, b. repeat split.
  destruct (cmp3 a b) eqn:E.
  - right. now apply cmp3_eq.
  - left. now apply cmp3_lt.
  - exfalso. apply cmp3_gt in E.
    assert (lt y x = true) by (apply lt_rank; eauto 6). congruence.
Qed.

Lemma le_lt_trans (x y z : float) : le x y = true -> lt y z = true -> lt x z = true.
Proof.
  rewrite le_rank, !lt_rank. intros (a & b & Ha & Hb & L1) (b' & c & Hb' & Hc & L2).
  rewrite Hb in Hb'. injection Hb' as <-.
  exists a, c. repeat split; trivial.
  destruct L1 as [L1 | ->]; trivial. eapply lex3_trans; eauto.
Qed.

Lemma le_trans (x y z : float) : le x y = true -> le y z = true -> le x z = true.
Proof.
  rewrite !le_rank. intros (a & b & Ha & Hb & L1) (b' & c & Hb' & Hc & L2).
  rewrite Hb in Hb'. injection Hb' as <-.
  exists a, c. repeat split; trivial.
  destruct L1 as [L1 | ->]; trivial.
  destruct L2 as [L2 | <-]; [left; eapply lex3_trans; eauto | now left].
Qed.

Lemma lt_le (x y : float) : lt x y = true -> le x y = true.
Proof.
  rewrite le_rank, lt_rank. intros (a & b & Ha & Hb & L). exists a, b. auto.
Qed.

Lemma lt_not_nan (x y : float) : lt x y = true -> is_nan x = false /\ is_nan y = false.
Proof.
  intros H. apply lt_rank in H. destruct H as (a & b & Ha & Hb & _).
  split.
  - destruct (is_nan x) eqn:E; trivial. apply rank_nan in E. congruence.
  - destruct (is_nan y) eqn:E; trivial. apply rank_nan in E. congruence.
Qed.

(** every float that is neither NaN nor [-inf] is above [-inf] *)
Lemma gt_neg_inf (x : float) :
  gt x neg_inf = true <-> is_nan x = false /\ x <> neg_inf.
Proof.
  unfold gt, lt, neg_inf.
  destruct x as [s | s | | s m e]; try destruct s; simpl; split;
    try (intros [_ H]; congruence); try discriminate;
    try (intros _; split; [reflexivity | discriminate]); try reflexivity.
  intros [H _]. discriminate.
Qed.

End FloatOrder.

(** ** The search loops *)

Section SearchFacts.

Context {B : Backend}.
Variable better : float -> float -> bool.
Variable criterion : Z -> M float.

Lemma step_of_outcome (st : float * Z) (n : Z) (w : World) :
  step_of better criterion st n w =
  (Ok (pick better [(n, fst (criterion n w))] st), snd (criterion n w)).
Proof.
  unfold step_of, try_except, bind, ret. simpl.
  destruct (criterion n w) as [[c | e] w']; simpl; trivial.
  destruct (better c (fst st)); reflexivity.
Qed.

(** The loop never raises, and its result is the selection [pick] among
    the outcomes of the candidates. *)
Lemma for_each_step_of (ns : list Z) (st : float * Z) (w : World) :
  for_each ns (step_of better criterion) st w =
  (Ok (pick better (outcomes criterion ns w) st), after criterion ns w).
Proof.
  revert st w. induction ns as [| n ns IH]; intros st w; simpl; trivial.
  unfold bind at 1. rewrite step_of_outcome. simpl. rewrite IH.
  destruct (fst (criterion n w)); reflexivity.
Qed.

Lemma outcomes_candidate (ns : list Z) (w : World) (n : Z) (r : outcome float) :
  In (n, r) (outcomes criterion ns w) -> In n ns.
Proof.
  revert w. induction ns as [| m ns IH]; intros w; simpl; [tauto |].
  intros [H | H]; [left; congruence | right; eauto].
Qed.

End SearchFacts.

Section PickFacts.

Context {B : Backend}.
Variable better : float -> float -> bool.
Hypothesis better_irrefl : forall x, better x x = false.
Hypothesis better_trans :
  forall x y z, better x y = true -> better y z = true -> better x z = true.

(** [pick] keeps its start, when no outcome is better than it, or moves
    to an outcome that is better than the start; in both cases no
    outcome is better than what it ends with. *)
Lemma pick_spec (rs : list (Z * outcome float)) (st : float * Z) :
  (pick better rs st = st \/
   (In (snd (pick better rs st), Ok (fst (pick better rs st))) rs /\
    better (fst (pick better rs st)) (fst st) = true)) /\
  (forall n c, In (n, Ok c) rs -> better c (fst (pick better rs st)) = false).
Proof.
  revert st. induction rs as [| [m [c | e]] rs IH]; intros st; simpl.
  - split; [now left | tauto].
  - set (st1 := if better c (fst st) then (c, m) else st).
    destruct (IH st1) as [D A]. split.
    + destruct D as [E | [I Bt]].
      * rewrite E. unfold st1. destruct (better c (fst st)) eqn:Hc; [| now left].
        right. simpl. split; [now left | trivial].
      * right. split; [now right |].
        unfold st1 in Bt. destruct (better c (fst st)) eqn:Hc; trivial.
        simpl in Bt. eapply better_trans; eauto.
    + intros n c' [H | H]; [| eauto].
      injection H as -> ->.
      destruct D as [E | [I Bt]].
      * rewrite E. unfold st1.
        destruct (better c' (fst st)) eqn:Hc; trivial; apply better_irrefl.
      * destruct (better c' (fst (pick better rs st1))) eqn:Hn; trivial.
        assert (T : better c' (fst st1) = true) by (eapply better_trans; eauto).
        unfold st1 in T. destruct (better c' (fst st)) eqn:Hc.
        -- simpl in T. now rewrite better_irrefl in T.
        -- congruence.
  - destruct (IH st) as [D A]. split.
    + destruct D as [E | [I Bt]]; [now left | right; split; [now right | trivial]].
    + intros n c [H | H]; [discriminate | eauto].
Qed.

End PickFacts.

Lemma gt_irrefl (x : float) : gt x x = false.
Proof. apply FloatOrder.lt_irrefl. Qed.

Lemma gt_trans (x y z : float) : gt x y = true -> gt y z = true -> gt x z = true.
Proof. unfold gt. intros H1 H2. eapply FloatOrder.lt_trans; eauto. Qed.

Section SelectorSteps.

Context {B : Backend}.

Lemma for_each_ext {A S : Type} (xs : list A) (f g : S -> A -> M S) (s : S) (w : World) :
  (forall s x, f s x = g s x) -> for_each xs f s w = for_each xs g s w.
Proof.
  intros E. revert s w. induction xs as [| x xs IH]; intros s w; simpl; trivial.
  unfold bind. rewrite E. destruct (g s x w) as [[s' | e] w']; auto.
Qed.

Lemma BIC_search (self : ModelSelector.t) (w : World) :
  SelectorBIC.search self w =
  (Ok (pick lt (outcomes (SelectorBIC.criterion self) (ModelSelector.candidates self) w) (inf, 0)),
   after (SelectorBIC.criterion self) (ModelSelector.candidates self) w).
Proof.
  unfold SelectorBIC.search. rewrite <- for_each_step_of.
  apply for_each_ext. intros [m b] n. reflexivity.
Qed.

Lemma DIC_search (self : ModelSelector.t) (w : World) :
  SelectorDIC.search self w =
  (Ok (pick gt (outcomes (SelectorDIC.criterion self) (ModelSelector.candidates self) w) (neg_inf, 0)),
   after (SelectorDIC.criterion self) (ModelSelector.candidates self) w).
Proof.
  unfold SelectorDIC.search. rewrite <- for_each_step_of.
  apply for_each_ext. intros [m b] n. reflexivity.
Qed.

Lemma CV_search (self : ModelSelector.t) (w : World) :
  (3 <= List.length (ModelSelector.sequences self))%nat ->
  SelectorCV.search self w =
  (Ok (pick gt (outcomes (SelectorCV.criterion self) (ModelSelector.candidates self) w) (neg_inf, 0)),
   after (SelectorCV.criterion self) (ModelSelector.candidates self) w).
Proof.
  intros H. unfold SelectorCV.search.
  destruct (Nat.leb_spec 3 (List.length (ModelSelector.sequences self))); [| lia].
  rewrite <- for_each_step_of.
  apply for_each_ext. intros [m b] n. reflexivity.
Qed.

(** What [base_model] returns and leaves behind, from what the fit does. *)
Lemma base_model_run (self : ModelSelector.t) (num_states : Z) (w : World) :
  ModelSelector.base_model self num_states w =
  let h := ModelSelector.base_params self num_states in
  let said l := if ModelSelector.verbose self then [EvPrint l] else [] in
  match hmm_fit h (ModelSelector.X self) (ModelSelector.lengths self) (rng w) with
  | (Ok th, g) =>
      (Ok (Some (mkModel h th)),
       mkWorld g (trace w ++ EvFit h ::
                  said (ModelCreated (ModelSelector.this_word self) num_states)))
  | (Raised _, g) =>
      (Ok None,
       mkWorld g (trace w ++ EvFit h ::
                  said (Failure (ModelSelector.this_word self) num_states)))
  end.
Proof.
  unfold ModelSelector.base_model, try_except, bind, fit, print, emit, ret.
  cbv zeta.
  destruct (hmm_fit _ _ _ (rng w)) as [[th | e] g];
    destruct (ModelSelector.verbose self); simpl;
    rewrite <- ?app_assoc; reflexivity.
Qed.

Lemma pick_sentinel_choice (better : float -> float -> bool) (start : float)
    (rs : list (Z * outcome float)) :
  (forall x, better x x = false) ->
  (forall x y z, better x y = true -> better y z = true -> better x z = true) ->
  sentinel_choice better start rs (snd (pick better rs (start, 0))).
Proof.
  intros Irr Tr.
  destruct (pick_spec better Irr Tr rs (start, 0)) as [D A]. simpl in D.
  split.
  - intros (n & c & I & Bc).
    destruct D as [E | [I' Bt]].
    + apply A in I. rewrite E in I. simpl in I. congruence.
    + exists (fst (pick better rs (start, 0))). auto.
  - intros No. destruct D as [E | [I' Bt]].
    + now rewrite E.
    + apply No in I'. congruence.
Qed.

End SelectorSteps.

Lemma range_spec (lo hi n : Z) : In n (range lo hi) <-> lo <= n < hi.
Proof.
  unfold range. rewrite in_map_iff. split.
  - intros (i & <- & I). apply in_seq in I. lia.
  - intros H. exists (Z.to_nat (n - lo)). split; [lia |].
    apply in_seq. lia.
Qed.

Lemma candidates_spec {B : Backend} (self : ModelSelector.t) (n : Z) :
  In n (ModelSelector.candidates self) <->
  ModelSelector.min_n_components self <= n <= ModelSelector.max_n_components self.
Proof. unfold ModelSelector.candidates. rewrite range_spec. lia. Qed.

(** ** ModelSelector.base_model *)

Lemma base_model_result {B : Backend} (self : ModelSelector.t)
    (num_states : Z) (w : World) :
  fst (ModelSelector.base_model self num_states w) =
  match fst (hmm_fit (ModelSelector.base_params self num_states)
               (ModelSelector.X self) (ModelSelector.lengths self) (rng w)) with
  | Ok th => Ok (Some (mkModel (ModelSelector.base_params self num_states) th))
  | Raised _ => Ok None
  end.
Proof.
  rewrite base_model_run. cbv zeta.
  destruct (hmm_fit _ _ _ (rng w)) as [[th | e] g]; reflexivity.
Qed.

(** C8: whatever [num_states], the selector and the state are,
    [base_model] does not raise; it returns the fitted model when the fit
    succeeds and [None] when the fit raises. *)
Theorem base_model_returns {B : Backend} (self : ModelSelector.t)
    (num_states : Z) (w : World) :
  let fitted := fst (hmm_fit (ModelSelector.base_params self num_states)
                       (ModelSelector.X self) (ModelSelector.lengths self) (rng w)) in
  (exists r, fst (ModelSelector.base_model self num_states w) = Ok r) /\
  (forall th, fitted = Ok th ->
     fst (ModelSelector.base_model self num_states w) =
     Ok (Some (mkModel (ModelSelector.base_params self num_states) th))) /\
  (forall e, fitted = Raised e ->
     fst (ModelSelector.base_model self num_states w) = Ok None).
Proof.
  intros fitted. rewrite base_model_result. fold fitted.
  destruct fitted as [th | e]; repeat split; eauto; intros; congruence.
Qed.

(** witness of C8: three states train, no state does not *)
Lemma base_model_returns_witness :
  fst (ModelSelector.base_model Examples.cat 3 Toy.w0) =
    Ok (Some (@mkModel (Toy.backend Examples.cat_table)
                (ModelSelector.base_params Examples.cat 3) (3, 0%nat))) /\
  fst (ModelSelector.base_model Examples.cat 0 Toy.w0) = Ok None.
Proof.
  split.
  - apply (proj1 (proj2 (base_model_returns Examples.cat 3 Toy.w0))). reflexivity.
  - apply (proj2 (proj2 (base_model_returns Examples.cat 0 Toy.w0)) ValueError).
    reflexivity.
Defined.

(** ** SelectorBIC *)

(** C2: the count the code computes is [n^3 * d - 1] and not the
    [n*n + 2*n*d - 1] of the specification; with two states and two features
    the code has 15 where the specification has 11. *)
Theorem free_parameters_differ :
  (forall n d, SelectorBIC.free_parameters n d = n * n * n * d - 1) /\
  SelectorBIC.free_parameters 2 2 = 15 /\
  spec_free_parameters 2 2 = 11.
Proof.
  repeat split. intros n d. unfold SelectorBIC.free_parameters. lia.
Qed.





(** After the scenario of the specification: BIC 120 with two states,
    110 with three and 116 with four; three states are selected. *)
Example BIC_selects_three :
  outcomes (SelectorBIC.criterion Examples.cat)
    (ModelSelector.candidates Examples.cat) Toy.w0 =
  [(2, Ok (of_Z 120)); (3, Ok (of_Z 110)); (4, Ok (of_Z 116))] /\
  fst (SelectorBIC.search Examples.cat Toy.w0) = Ok (of_Z 110, 3) /\
  fst (SelectorBIC.select Examples.cat Toy.w0) =
  Ok (Some (@mkModel (Toy.backend Examples.cat_table)
              (ModelSelector.base_params Examples.cat 3) (3, 0%nat))).
Proof. repeat split; vm_compute; reflexivity. Qed.

(** Two features, thirty frames, log-likelihood -100 with two states and
    -80 with three: the search keeps two states (its values are about
    251 and 340), while with the count [n*n + 2*n*d - 1] of the
    specification the BIC of three states (about 228) is below the BIC
    of two (about 237). *)
Example BIC_count_changes_choice :
  (exists c, fst (SelectorBIC.search Wide.word Wide.w0) = Ok (c, 2)) /\
  lt (Wide.spec_BIC 3 2 (of_Z (-80)) Wide.log30)
     (Wide.spec_BIC 2 2 (of_Z (-100)) Wide.log30) = true.
Proof.
  split.
  - eexists. vm_compute. reflexivity.
  - vm_compute. reflexivity.
Qed.


(** ** SelectorDIC *)

Section DICFacts.

Context {B : Backend}.
Import ModelSelector.

Lemma others_from (self : t) (model : Model) (ws : list string) (acc : accum) (w : World) :
  for_each ws
    (fun sumLogL word =>
       if negb (String.eqb word (this_word self)) then
         match dict_get (hwords self) word with
         | None => raise KeyError
         | Some (X_temp, lengths_temp) =>
             logL_temp <- lift (score model X_temp lengths_temp) ;;
             ret (Float (accum_add sumLogL logL_temp))
         end
       else ret sumLogL)
    acc w =
  (match SpecDIC.scores_on self model
           (filter (fun word => negb (String.eqb word (this_word self))) ws) with
   | Ok ls => Ok (sum_from acc ls)
   | Raised e => Raised e
   end, w).
Proof.
  revert acc. induction ws as [| word ws IH]; intros acc; simpl; trivial.
  unfold bind at 1.
  destruct (negb (String.eqb word (this_word self))); simpl.
  - destruct (dict_get (hwords self) word) as [[X_temp lengths_temp] |]; simpl; trivial.
    unfold bind, lift, ret.
    destruct (score model X_temp lengths_temp) as [l | e]; simpl; trivial.
    rewrite IH.
    destruct (SpecDIC.scores_on self model _); reflexivity.
  - apply IH.
Qed.

(** The loop over the words sums the scores on the other words. *)
Lemma others_run (self : t) (model : Model) (w : World) :
  SelectorDIC.others self model w =
  (match SpecDIC.scores_on self model (SpecDIC.other_words self) with
   | Ok ls => Ok (sum_from IntZero ls)
   | Raised e => Raised e
   end, w).
Proof. apply others_from. Qed.

(** The body of the [try] computes the DIC of the specification. *)
Lemma DIC_criterion_value (self : t) (n : Z) (w : World) :
  fst (SelectorDIC.criterion self n w) =
  SpecDIC.value self n
    (fst (hmm_fit (GaussianHMM.new n) (X self) (lengths self) (rng w))).
Proof.
  unfold SelectorDIC.criterion, bind, fit, lift, ret.
  destruct (hmm_fit _ _ _ (rng w)) as [[th | e] g]; simpl; trivial.
  destruct (score _ (X self) (lengths self)) as [logL | e]; simpl; trivial.
  rewrite others_run.
  destruct (SpecDIC.scores_on _ _ _) as [ls | e]; simpl; trivial.
  destruct (accum_truediv _ _); reflexivity.
Qed.

Lemma pick_all_raised (better : float -> float -> bool)
    (rs : list (Z * outcome float)) (st : float * Z) :
  (forall n r, In (n, r) rs -> exists e, r = Raised e) -> pick better rs st = st.
Proof.
  induction rs as [| [m r] rs IH]; intros H; simpl; trivial.
  destruct (H m r) as [e ->]; [now left |].
  apply IH. intros n r' I. apply (H n r'). now right.
Qed.

Lemma outcomes_all (criterion : Z -> M float) (P : outcome float -> Prop)
    (ns : list Z) (w : World) :
  (forall n w1, P (fst (criterion n w1))) ->
  forall n r, In (n, r) (outcomes criterion ns w) -> P r.
Proof.
  intros H. revert w. induction ns as [| m ns IH]; intros w n r; simpl; [tauto |].
  intros [E | I]; [injection E as <- <-; apply H | eauto].
Qed.

End DICFacts.

(** C5 (amended): the loop chooses, among the candidates that trained,
    scored on every word and have a DIC strictly above [-inf], one whose
    DIC no candidate is strictly above, and [select] returns [base_model]
    of it (of the sentinel 0 when there is no such candidate). The DIC of
    a candidate is its score on this word's data minus the sum of its
    scores on every other word's data divided by the number of words
    minus one; a candidate with a failing step has no DIC. *)
Theorem DIC_select_maximum {B : Backend} (self : ModelSelector.t) (w : World) :
  let rs := outcomes (SelectorDIC.criterion self) (ModelSelector.candidates self) w in
  let w' := after (SelectorDIC.criterion self) (ModelSelector.candidates self) w in
  exists best,
    sentinel_choice gt neg_inf rs best /\
    (forall n r, In (n, r) rs ->
       ModelSelector.min_n_components self <= n <= ModelSelector.max_n_components self) /\
    SelectorDIC.select self w = ModelSelector.base_model self best w' /\
    (forall n w1,
       fst (SelectorDIC.criterion self n w1) =
       SpecDIC.value self n
         (fst (hmm_fit (GaussianHMM.new n) (ModelSelector.X self)
                 (ModelSelector.lengths self) (rng w1)))).
Proof.
  intros rs w'.
  pose proof (pick_sentinel_choice gt neg_inf rs gt_irrefl gt_trans) as Ch.
  exists (snd (pick gt rs (neg_inf, 0))).
  split; [exact Ch |]. split; [| split].
  - intros n r I. apply outcomes_candidate in I. now apply candidates_spec in I.
  - unfold SelectorDIC.select, bind. rewrite DIC_search. reflexivity.
  - intros. apply DIC_criterion_value.
Qed.

(** witness of C5: two words; the DIC is 20 with two states and 4 with
    three: a candidate with a maximal DIC is chosen *)
Lemma DIC_select_maximum_witness :
  let rs := outcomes (SelectorDIC.criterion Examples.pets)
              (ModelSelector.candidates Examples.pets) Toy.w0 in
  let w' := after (SelectorDIC.criterion Examples.pets)
              (ModelSelector.candidates Examples.pets) Toy.w0 in
  exists best c,
    In (best, Ok c) rs /\ gt c neg_inf = true /\
    (forall n c', In (n, Ok c') rs -> gt c' c = false) /\
    SelectorDIC.select Examples.pets Toy.w0 =
    ModelSelector.base_model Examples.pets best w'.
Proof.
  intros rs w'.
  destruct (DIC_select_maximum Examples.pets Toy.w0) as (best & [Ch _] & _ & Sel & _).
  destruct Ch as (c & I & L & Mx).
  - exists 2, (of_Z 20). split; [left |]; reflexivity.
  - exists best, c. auto.
Defined.

(** C5, counterexample: the only candidate trains and scores [-inf] on
    its word and -30 on the other; its DIC is [-inf], which is not above
    the initial [-inf]: the code returns [base_model(0)], not
    [base_model(2)]. *)
Lemma DIC_infinite_counterexample :
  let rs := outcomes (SelectorDIC.criterion Examples.flat)
              (ModelSelector.candidates Examples.flat) Toy.w0 in
  let w' := after (SelectorDIC.criterion Examples.flat)
              (ModelSelector.candidates Examples.flat) Toy.w0 in
  ~ exists best,
      spec_choice gt rs best /\
      SelectorDIC.select Examples.flat Toy.w0 =
      ModelSelector.base_model Examples.flat best w'.
Proof.
  intros rs w' (best & [C _] & E).
  destruct C as (c & I & _).
  - exists 2, neg_inf. vm_compute. tauto.
  - vm_compute in I. destruct I as [I | []].
    injection I as <- <-.
    vm_compute in E. discriminate E.
Qed.

Lemma single_label_value {B : Backend} (aws : dict (list ModelSelector.Sequence))
    (awx : dict (list Row * list Z)) (tw : string) (nc mn mx seed : Z) (vb : bool)
    (self : ModelSelector.t) (n : Z) (r : outcome Theta) :
  ModelSelector.init aws awx tw nc mn mx seed vb = Ok self ->
  List.length aws = 1%nat ->
  SpecDIC.value self n r =
  match r with
  | Raised e => Raised e
  | Ok th =>
      match score (mkModel (GaussianHMM.new n) th)
              (ModelSelector.X self) (ModelSelector.lengths self) with
      | Raised e => Raised e
      | Ok _ => Raised ZeroDivisionError
      end
  end.
Proof.
  intros Hi Hl. unfold ModelSelector.init in Hi.
  destruct aws as [| [k v] [| p aws]]; try discriminate Hl.
  simpl in Hi. destruct (String.eqb tw k) eqn:Ek; [| discriminate Hi].
  destruct (dict_get awx tw) as [[X0 l0] |]; [| discriminate Hi].
  injection Hi as <-.
  unfold SpecDIC.value, SpecDIC.other_words. simpl.
  rewrite String.eqb_sym, Ek. simpl.
  destruct r as [th | e]; trivial.
Qed.

(** For a selector built by [init], the divisor of [avgLogL] is 0 only
    when there is no other word: a float sum is never divided by 0. *)
Lemma DIC_divisor_nonzero {B : Backend} (aws : dict (list ModelSelector.Sequence))
    (awx : dict (list Row * list Z)) (tw : string) (nc mn mx seed : Z) (vb : bool)
    (self : ModelSelector.t) :
  ModelSelector.init aws awx tw nc mn mx seed vb = Ok self ->
  SpecDIC.other_words self <> [] ->
  Z.of_nat (List.length (ModelSelector.words self)) - 1 <> 0.
Proof.
  intros Hi Ho. unfold ModelSelector.init in Hi.
  destruct (dict_get aws tw) as [seqs |] eqn:Hg; [| discriminate Hi].
  destruct (dict_get awx tw) as [[X0 l0] |]; [| discriminate Hi].
  injection Hi as <-. unfold SpecDIC.other_words in Ho.
  cbn [ModelSelector.words ModelSelector.this_word] in *.
  destruct aws as [| [k v] [| p aws]].
  - discriminate Hg.
  - simpl in Hg, Ho. destruct (String.eqb tw k) eqn:Ek; [| discriminate Hg].
    rewrite String.eqb_sym, Ek in Ho. now simpl in Ho.
  - cbn [List.length]. lia.
Qed.

(** C10: with exactly one label every candidate raises (where the model
    trains and scores, the division by [len(self.words) - 1] raises
    ZeroDivisionError), the search ends with the sentinel 0, [select]
    returns [base_model(0)], and that is [None] as the fit of
    [base_model(0)] raises. *)
Theorem DIC_single_label {B : Backend} (aws : dict (list ModelSelector.Sequence))
    (awx : dict (list Row * list Z)) (tw : string) (nc mn mx seed : Z) (vb : bool)
    (self : ModelSelector.t) (w : World) :
  ModelSelector.init aws awx tw nc mn mx seed vb = Ok self ->
  List.length aws = 1%nat ->
  let rs := outcomes (SelectorDIC.criterion self) (ModelSelector.candidates self) w in
  let w' := after (SelectorDIC.criterion self) (ModelSelector.candidates self) w in
  (forall n r, In (n, r) rs -> exists e, r = Raised e) /\
  (forall n w1 th logL,
     fst (hmm_fit (GaussianHMM.new n) (ModelSelector.X self)
            (ModelSelector.lengths self) (rng w1)) = Ok th ->
     score (mkModel (GaussianHMM.new n) th)
       (ModelSelector.X self) (ModelSelector.lengths self) = Ok logL ->
     fst (SelectorDIC.criterion self n w1) = Raised ZeroDivisionError) /\
  fst (SelectorDIC.search self w) = Ok (neg_inf, 0) /\
  SelectorDIC.select self w = ModelSelector.base_model self 0 w' /\
  ((exists e, fst (hmm_fit (ModelSelector.base_params self 0) (ModelSelector.X self)
                     (ModelSelector.lengths self) (rng w')) = Raised e) ->
   fst (SelectorDIC.select self w) = Ok None).
Proof.
  intros Hi Hl rs w'.
  assert (V : forall n w1, exists e, fst (SelectorDIC.criterion self n w1) = Raised e).
  { intros n w1. rewrite DIC_criterion_value.
    rewrite (single_label_value aws awx tw nc mn mx seed vb self n _ Hi Hl).
    destruct (fst (hmm_fit _ _ _ (rng w1))) as [th | e]; [| eauto].
    destruct (score _ _ _); eauto. }
  assert (R : forall n r, In (n, r) rs -> exists e, r = Raised e).
  { apply (outcomes_all (SelectorDIC.criterion self) (fun r => exists e, r = Raised e)).
    exact V. }
  assert (S0 : SelectorDIC.search self w = (Ok (neg_inf, 0), w')).
  { rewrite DIC_search. fold rs. fold w'. now rewrite (pick_all_raised gt rs _ R). }
  assert (Sel : SelectorDIC.select self w = ModelSelector.base_model self 0 w').
  { unfold SelectorDIC.select, bind. rewrite S0. reflexivity. }
  split; [exact R |]. split; [| split; [| split]].
  - intros n w1 th logL Hf Hs. rewrite DIC_criterion_value.
    rewrite (single_label_value aws awx tw nc mn mx seed vb self n _ Hi Hl).
    rewrite Hf, Hs. reflexivity.
  - now rewrite S0.
  - exact Sel.
  - intros (e & Hf). rewrite Sel, base_model_result, Hf. reflexivity.
Qed.

(** witness of C10: the one word "CAT", candidates 2, 3 and 4 *)
Lemma DIC_single_label_witness :
  fst (SelectorDIC.search Examples.cat Toy.w0) = Ok (neg_inf, 0) /\
  fst (SelectorDIC.select Examples.cat Toy.w0) = Ok None.
Proof.
  destruct (@DIC_single_label (Toy.backend Examples.cat_table)
              [("CAT", [[7]])] [("CAT", ([7], [1]))] "CAT" 3 2 4 14 false
              Examples.cat Toy.w0 eq_refl eq_refl) as (_ & _ & S0 & _ & N).
  split; [exact S0 |].
  apply N. exists ValueError. reflexivity.
Defined.

(** ** SelectorCV *)

Section CVFacts.

Context {B : Backend}.
Import ModelSelector.

Lemma sum_folds_cons (self : t) (n : Z) (fold : list nat * list nat)
    (folds : list (list nat * list nat)) (acc : accum) (w : World) :
  for_each (fold :: folds)
    (fun logL_sum fold =>
       logL <- SelectorCV.fold_logL self n fold ;;
       ret (Float (accum_add logL_sum logL)))
    acc w =
  match SelectorCV.fold_logL self n fold w with
  | (Ok l, w1) =>
      for_each folds
        (fun logL_sum fold =>
           logL <- SelectorCV.fold_logL self n fold ;;
           ret (Float (accum_add logL_sum logL)))
        (Float (accum_add acc l)) w1
  | (Raised e, w1) => (Raised e, w1)
  end.
Proof.
  simpl. unfold bind, ret.
  destruct (SelectorCV.fold_logL self n fold w) as [[l | e] w1]; reflexivity.
Qed.

Lemma sum_folds_from (self : t) (n : Z) (folds : list (list nat * list nat))
    (acc : accum) (w : World) :
  match fold_scores self n folds w with
  | Some ls =>
      fst (for_each folds
             (fun logL_sum fold =>
                logL <- SelectorCV.fold_logL self n fold ;;
                ret (Float (accum_add logL_sum logL)))
             acc w) = Ok (sum_from acc ls)
  | None =>
      exists e,
        fst (for_each folds
               (fun logL_sum fold =>
                  logL <- SelectorCV.fold_logL self n fold ;;
                  ret (Float (accum_add logL_sum logL)))
               acc w) = Raised e
  end.
Proof.
  revert acc w. induction folds as [| fold folds IH]; intros acc w.
  - reflexivity.
  - rewrite sum_folds_cons. cbn [fold_scores].
    destruct (SelectorCV.fold_logL self n fold w) as [[l | e] w1].
    + specialize (IH (Float (accum_add acc l)) w1).
      destruct (fold_scores self n folds w1) as [ls |]; exact IH.
    + simpl. eauto.
Qed.

Lemma split_run (k : nat) (w : World) :
  split k w = (KFold_split k, mkWorld (rng w) (trace w ++ [EvSplit])).
Proof.
  unfold split, bind, emit, lift. simpl. destruct (KFold_split k); reflexivity.
Qed.

End CVFacts.

(** C4 (amended): for a candidate [n] and the folds of [KFold().split],
    when every fold trains and scores, [logL_avg] is the sum of the fold
    scores divided by the constant 3, whatever the number of folds; when
    a fold raises, the whole candidate raises: no average is computed and
    the turn of the loop leaves [(best_avg, best_num_components)] as it
    was. *)
Theorem CV_candidate_all_or_nothing {B : Backend} (self : ModelSelector.t) (n : Z)
    (w : World) (folds : list (list nat * list nat)) :
  KFold_split (List.length (ModelSelector.sequences self)) = Ok folds ->
  let w1 := mkWorld (rng w) (trace w ++ [EvSplit]) in
  (forall ls, fold_scores self n folds w1 = Some ls ->
     fst (SelectorCV.criterion self n w) =
     Ok (div (match sum_from IntZero ls with IntZero => zero | Float f => f end) (of_Z 3))) /\
  (fold_scores self n folds w1 = None ->
     (exists e, fst (SelectorCV.criterion self n w) = Raised e) /\
     forall st, fst (SelectorCV.step self st n w) = Ok st).
Proof.
  intros Hk w1.
  assert (C : SelectorCV.criterion self n w =
              match SelectorCV.sum_folds self n folds w1 with
              | (Ok s, w2) => (accum_truediv s 3, w2)
              | (Raised e, w2) => (Raised e, w2)
              end).
  { unfold SelectorCV.criterion, bind. rewrite split_run, Hk. fold w1.
    destruct (SelectorCV.sum_folds self n folds w1) as [[s | e] w2]; reflexivity. }
  pose proof (sum_folds_from self n folds IntZero w1) as F.
  fold (SelectorCV.sum_folds self n folds) in F.
  split.
  - intros ls Hs. rewrite Hs in F. rewrite C.
    destruct (SelectorCV.sum_folds self n folds w1) as [[s | e] w2]; simpl in F.
    + injection F as ->. simpl. destruct (sum_from IntZero ls); reflexivity.
    + discriminate F.
  - intros Hs. rewrite Hs in F. destruct F as [e F].
    assert (R : fst (SelectorCV.criterion self n w) = Raised e).
    { rewrite C. destruct (SelectorCV.sum_folds self n folds w1) as [[s | e'] w2];
        simpl in F; [discriminate F | injection F as ->; reflexivity]. }
    split; [eauto |].
    intros [best_avg best]. unfold SelectorCV.step, try_except, bind.
    destruct (SelectorCV.criterion self n w) as [[c | e'] w2]; simpl in R;
      [discriminate R | reflexivity].
Qed.

(** witness of C4: three sequences; with three states every fold scores
    -30 and the average is -90 / 3; with two states the second fold
    raises and the candidate is skipped *)
Lemma CV_candidate_all_or_nothing_witness :
  fst (SelectorCV.criterion Examples.three 3 Toy.w0) = Ok (of_Z (-30)) /\
  (forall st, fst (SelectorCV.step Examples.three st 2 Toy.w0) = Ok st).
Proof.
  split.
  - apply (proj1 (CV_candidate_all_or_nothing Examples.three 3 Toy.w0 _ eq_refl)
             [of_Z (-30); of_Z (-30); of_Z (-30)] eq_refl).
  - apply (proj2 (CV_candidate_all_or_nothing Examples.three 2 Toy.w0 _ eq_refl) eq_refl).
Defined.

(** C4, counterexample: with two states the fold that holds out the
    second sequence raises. As the specification has it, the candidate would get
    the average (-3 + -6) / 3 of the two other folds; in the code the
    candidate raises and has no average. *)
Lemma CV_failing_fold_counterexample :
  ~ (forall n, fst (SelectorCV.criterion Examples.three n Toy.w0) =
               fst (SpecCV.criterion Examples.three n Toy.w0)).
Proof.
  intros H. specialize (H 2). vm_compute in H. discriminate H.
Qed.

(** C6: with fewer than three sequences [select] is [base_model(3)]: the
    same result and the same state, in which the only new library call
    is the fit of [base_model(3)]; no split and no candidate fit is
    made. *)
Theorem CV_few_sequences {B : Backend} (self : ModelSelector.t) (w : World) :
  (List.length (ModelSelector.sequences self) < 3)%nat ->
  SelectorCV.select self w = ModelSelector.base_model self 3 w /\
  exists l,
    trace (snd (SelectorCV.select self w)) =
    trace w ++ EvFit (ModelSelector.base_params self 3) ::
               (if ModelSelector.verbose self then [EvPrint l] else []).
Proof.
  intros H.
  assert (E : SelectorCV.select self w = ModelSelector.base_model self 3 w).
  { unfold SelectorCV.select, SelectorCV.search, bind.
    destruct (Nat.leb_spec 3 (List.length (ModelSelector.sequences self))); [lia |].
    reflexivity. }
  split; [exact E |].
  rewrite E, base_model_run. cbv zeta.
  destruct (hmm_fit _ _ _ (rng w)) as [[th | e] g]; simpl; eauto.
Qed.

(** witness of C6: a word with two sequences *)
Lemma CV_few_sequences_witness :
  SelectorCV.select Examples.two Toy.w0 = ModelSelector.base_model Examples.two 3 Toy.w0.
Proof.
  apply (CV_few_sequences Examples.two Toy.w0). simpl. lia.
Defined.

(** ** recognize *)

Section DictFacts.

Context {V : Type}.

Lemma dict_set_fresh (d : dict V) (k : string) (v : V) :
  ~ In k (dict_keys d) -> dict_set d k v = d ++ [(k, v)].
Proof.
  induction d as [| [k' v'] d IH]; simpl; intros H; trivial.
  destruct (String.eqb_spec k k') as [-> | N]; [tauto |].
  rewrite IH; tauto.
Qed.

Lemma dict_get_map {W : Type} (f : V -> W) (d : dict V) (k : string) :
  dict_get (map (fun e => (fst e, f (snd e))) d) k = option_map f (dict_get d k).
Proof.
  induction d as [| [k' v'] d IH]; simpl; trivial.
  destruct (String.eqb k k'); trivial.
Qed.

End DictFacts.

Section RecognizerFacts.

Context {B : Backend}.

Lemma word_loop (X : list Row) (lengths : list Z) (models : dict (option Model))
    (mx : float) (bw : string) (pd : dict float) :
  NoDup (dict_keys pd ++ dict_keys models) ->
  fold_left (Recognizer.word_step X lengths) models (mx, bw, pd) =
  (best_of (scores_of models X lengths) (mx, bw), pd ++ scores_of models X lengths).
Proof.
  revert mx bw pd. induction models as [| [word model] models IH]; intros mx bw pd N.
  - simpl. now rewrite app_nil_r.
  - cbn [fold_left Recognizer.word_step].
    assert (F : ~ In word (dict_keys pd)).
    { intros I. apply NoDup_remove_2 in N. apply N.
      apply in_or_app. now left. }
    rewrite (dict_set_fresh pd word _ F).
    assert (N' : NoDup (dict_keys (pd ++ [(word, Recognizer.try_score model X lengths)])
                        ++ dict_keys models)).
    { unfold dict_keys in *. rewrite map_app. simpl. rewrite <- app_assoc. exact N. }
    destruct (gt (Recognizer.try_score model X lengths) mx) eqn:G;
      rewrite (IH _ _ _ N'); unfold scores_of, best_of; simpl; rewrite G;
      rewrite <- app_assoc; reflexivity.
Qed.

Lemma item_step_run (models : dict (option Model)) (ps : list (dict float))
    (gs : list string) (bw : string) (key : Z) (X : list Row) (lengths : list Z) :
  dict_wf models ->
  Recognizer.item_step models (ps, gs, bw) (key, (X, lengths)) =
  (ps ++ [scores_of models X lengths],
   gs ++ [snd (best_of (scores_of models X lengths) (neg_inf, bw))],
   snd (best_of (scores_of models X lengths) (neg_inf, bw))).
Proof.
  intros N. unfold Recognizer.item_step.
  pose proof (word_loop X lengths models neg_inf bw [] N) as E.
  destruct (fold_left _ models _) as [[mx g] pd]. simpl in E.
  destruct (best_of (scores_of models X lengths) (neg_inf, bw)) as [mx' g'].
  injection E as -> -> ->. reflexivity.
Qed.

Lemma item_loop (models : dict (option Model)) (items : list (Z * (list Row * list Z)))
    (ps : list (dict float)) (gs : list string) (bw : string) :
  dict_wf models ->
  exists bw',
    fold_left (Recognizer.item_step models) items (ps, gs, bw) =
    (ps ++ map (fun it => scores_of models (fst (snd it)) (snd (snd it))) items,
     gs ++ guesses_from models items bw, bw').
Proof.
  intros N. revert ps gs bw.
  induction items as [| [key [X lengths]] items IH]; intros ps gs bw.
  - exists bw. simpl. now rewrite !app_nil_r.
  - cbn [fold_left]. rewrite (item_step_run models ps gs bw key X lengths N).
    destruct (IH (ps ++ [scores_of models X lengths])
                 (gs ++ [snd (best_of (scores_of models X lengths) (neg_inf, bw))])
                 (snd (best_of (scores_of models X lengths) (neg_inf, bw)))) as [bw' E].
    exists bw'. rewrite E. simpl. rewrite <- !app_assoc. reflexivity.
Qed.

(** The two lists [recognize] returns. *)
Lemma recognize_run (models : dict (option Model)) (items : list (Z * (list Row * list Z))) :
  dict_wf models ->
  Recognizer.recognize models items =
  (map (fun it => scores_of models (fst (snd it)) (snd (snd it))) items,
   guesses_from models items "").
Proof.
  intros N. unfold Recognizer.recognize.
  destruct (item_loop models items [] [] "" N) as [bw' E].
  rewrite E. reflexivity.
Qed.

Lemma guesses_from_length (models : dict (option Model))
    (items : list (Z * (list Row * list Z))) (bw : string) :
  List.length (guesses_from models items bw) = List.length items.
Proof.
  revert bw. induction items as [| [key [X lengths]] items IH]; intros bw; simpl; auto.
Qed.

Lemma guesses_from_nth (models : dict (option Model))
    (items : list (Z * (list Row * list Z))) (bw : string) (i : nat)
    (key : Z) (X : list Row) (lengths : list Z) :
  nth_error items i = Some (key, (X, lengths)) ->
  exists bw',
    nth_error (guesses_from models items bw) i =
    Some (snd (best_of (scores_of models X lengths) (neg_inf, bw'))).
Proof.
  revert bw i. induction items as [| [k [X0 l0]] items IH]; intros bw [| i]; simpl;
    try discriminate.
  - intros E. injection E as _ <- <-. eauto.
  - intros E. eauto.
Qed.

End RecognizerFacts.

(** C7: when the score of a label's model on an item raises, the item's
    mapping has [-inf] for that label, and the item is processed all the
    same: both result lists have an entry for it (and one entry for each
    item). *)
Theorem recognize_failure_neg_inf {B : Backend} (models : dict (option Model))
    (X_all : list (Z * (list Row * list Z))) (i : nat) (key : Z) (X : list Row)
    (lengths : list Z) (word : string) (model : option Model) (e : exn) :
  dict_wf models ->
  nth_error X_all i = Some (key, (X, lengths)) ->
  dict_get models word = Some model ->
  Recognizer.score_entry model X lengths = Raised e ->
  exists prob guess,
    nth_error (fst (Recognizer.recognize models X_all)) i = Some prob /\
    dict_get prob word = Some neg_inf /\
    nth_error (snd (Recognizer.recognize models X_all)) i = Some guess /\
    List.length (fst (Recognizer.recognize models X_all)) = List.length X_all /\
    List.length (snd (Recognizer.recognize models X_all)) = List.length X_all.
Proof.
  intros N Hi Hm Hs. rewrite (recognize_run models X_all N). simpl.
  destruct (guesses_from_nth models X_all "" i key X lengths Hi) as [bw' G].
  exists (scores_of models X lengths), (snd (best_of (scores_of models X lengths) (neg_inf, bw'))).
  repeat split.
  - rewrite nth_error_map, Hi. reflexivity.
  - unfold scores_of. rewrite (dict_get_map (fun m => Recognizer.try_score m X lengths)).
    rewrite Hm. simpl. unfold Recognizer.try_score. now rewrite Hs.
  - exact G.
  - apply length_map.
  - apply guesses_from_length.
Qed.

(** witness of C7: both models fail on the second item *)
Lemma recognize_failure_neg_inf_witness :
  exists prob guess,
    nth_error (fst (Recognizer.recognize Examples.ab_models Examples.ab_items)) 1 = Some prob /\
    dict_get prob "A" = Some neg_inf /\
    nth_error (snd (Recognizer.recognize Examples.ab_models Examples.ab_items)) 1 = Some guess /\
    List.length (fst (Recognizer.recognize Examples.ab_models Examples.ab_items)) = 2%nat /\
    List.length (snd (Recognizer.recognize Examples.ab_models Examples.ab_items)) = 2%nat.
Proof.
  apply (@recognize_failure_neg_inf (Toy.backend Examples.ab_table)
           Examples.ab_models Examples.ab_items 1 1 [2] [1] "A"
           (Some Examples.model_A) ValueError).
  - repeat constructor; simpl; intuition discriminate.
  - reflexivity.
  - reflexivity.
  - reflexivity.
Defined.

Lemma max_first_of_val (prob : dict float) (w : string) (v : float) :
  max_first_val prob w v -> max_first prob w.
Proof. intros (pre & post & H). exists pre, v, post. exact H. Qed.

Lemma guess_inv_step (bw0 : string) (seen : dict float) (st : float * string)
    (w : string) (v : float) :
  (forall w' v', In (w', v') seen -> is_nan v' = false) ->
  is_nan v = false ->
  guess_inv bw0 seen st ->
  guess_inv bw0 (seen ++ [(w, v)]) (if gt v (fst st) then (v, w) else st).
Proof.
  intros Ns Nv [[-> Low] | [(pre & post & E & Hpre & Hpost) Hi]]; simpl.
  - destruct (gt v neg_inf) eqn:G.
    + right. simpl. split; trivial.
      exists seen, []. split; [reflexivity |]. split; [| intros ? ? []].
      intros w' v' I.
      assert (v' = neg_inf).
      { pose proof (Low _ _ I) as L. pose proof (Ns _ _ I) as Nn.
        destruct v' as [s | [|] | | s m e]; trivial;
          cbv in L, Nn; discriminate. }
      subst v'. exact G.
    + left. split; trivial. intros w' v' I. apply in_app_or in I.
      destruct I as [I | [I | []]]; [eauto | injection I as <- <-; exact G].
  - destruct st as [mx bw]. simpl in *.
    assert (Nmx : is_nan mx = false) by (apply (FloatOrder.lt_not_nan _ _ Hi)).
    destruct (gt v mx) eqn:G.
    + right. simpl. split.
      * exists seen, []. split; [reflexivity |]. split; [| intros ? ? []].
        intros w' v' I. rewrite E in I. apply in_app_or in I.
        destruct I as [I | [I | I]].
        -- eapply FloatOrder.lt_trans; [apply (Hpre _ _ I) | exact G].
        -- injection I as <- <-. exact G.
        -- eapply FloatOrder.le_lt_trans; [apply (Hpost _ _ I) | exact G].
      * eapply gt_trans; [exact G | exact Hi].
    + right. simpl. split; trivial.
      exists pre, (post ++ [(w, v)]). split.
      * rewrite E, <- app_assoc. reflexivity.
      * split; trivial. intros w' v' I. apply in_app_or in I.
        destruct I as [I | [I | []]]; [eauto |].
        injection I as <- <-. now apply FloatOrder.not_lt_le.
Qed.

Lemma best_of_inv (bw0 : string) (rest seen : dict float) (st : float * string) :
  (forall w v, In (w, v) (seen ++ rest) -> is_nan v = false) ->
  guess_inv bw0 seen st ->
  guess_inv bw0 (seen ++ rest) (best_of rest st).
Proof.
  revert seen st. induction rest as [| [w v] rest IH]; intros seen st Nn I.
  - simpl. now rewrite app_nil_r.
  - unfold best_of. cbn [fold_left fst snd]. fold (best_of rest).
    replace (seen ++ (w, v) :: rest) with ((seen ++ [(w, v)]) ++ rest)
      by (now rewrite <- app_assoc).
    apply IH.
    + intros w' v' H. apply (Nn w' v'). now rewrite <- app_assoc in H.
    + apply guess_inv_step; trivial.
      * intros w' v' H. apply (Nn w' v'). apply in_or_app. now left.
      * apply (Nn w v). apply in_or_app. right. now left.
Qed.

(** X16: the guess of an item is the first label of maximal score, when
    no score of the item is NaN and some score is above [-inf]. *)
Lemma recognize_guess_max_first {B : Backend} (models : dict (option Model))
    (X_all : list (Z * (list Row * list Z))) (i : nat) (key : Z) (X : list Row)
    (lengths : list Z) (prob : dict float) (guess : string) :
  dict_wf models ->
  nth_error X_all i = Some (key, (X, lengths)) ->
  (forall w m, In (w, m) models -> is_nan (Recognizer.try_score m X lengths) = false) ->
  (exists w m, In (w, m) models /\ gt (Recognizer.try_score m X lengths) neg_inf = true) ->
  nth_error (fst (Recognizer.recognize models X_all)) i = Some prob ->
  nth_error (snd (Recognizer.recognize models X_all)) i = Some guess ->
  max_first prob guess.
Proof.
  intros N Hi Nn (w & m & Iw & Gw) Hp Hg.
  rewrite (recognize_run models X_all N) in Hp, Hg. simpl in Hp, Hg.
  rewrite nth_error_map, Hi in Hp. simpl in Hp. injection Hp as <-.
  destruct (guesses_from_nth models X_all "" i key X lengths Hi) as [bw' G].
  rewrite G in Hg. injection Hg as <-.
  assert (Nn' : forall w v, In (w, v) ([] ++ scores_of models X lengths) -> is_nan v = false).
  { intros w' v' I. simpl in I. unfold scores_of in I. apply in_map_iff in I.
    destruct I as ([w2 m2] & E & I). injection E as <- <-. eauto. }
  pose proof (best_of_inv bw' (scores_of models X lengths) [] (neg_inf, bw') Nn') as Inv.
  destruct Inv as [[_ Low] | [Mx _]].
  - left. split; trivial. intros ? ? [].
  - exfalso. specialize (Low w (Recognizer.try_score m X lengths)).
    rewrite Low in Gw; [discriminate |].
    simpl. unfold scores_of. apply in_map_iff. exists (w, m). auto.
  - simpl in Mx. eapply max_first_of_val; eauto.
Qed.

(** X16 at the first item of the example: "B" scores -3, above the -5
    of "A" *)
Lemma recognize_guess_max_first_witness :
  max_first [("A", of_Z (-5)); ("B", of_Z (-3))] "B".
Proof.
  apply (@recognize_guess_max_first (Toy.backend Examples.ab_table)
           Examples.ab_models Examples.ab_items 0 0 [1] [1]).
  - repeat constructor; simpl; intuition discriminate.
  - reflexivity.
  - intros w m [E | [E | []]]; injection E as <- <-; reflexivity.
  - exists "A", (Some Examples.model_A). split; [now left | reflexivity].
  - reflexivity.
  - reflexivity.
Defined.

(** C1: two labels and two items; both models score the first item, the
    guess is "B"; both fail on the second item, whose mapping has [-inf]
    for "A" and for "B": the first label of maximal value is "A", and the
    guess is the "B" left over from the first item. *)
Theorem recognize_stale_guess :
  Recognizer.recognize Examples.ab_models Examples.ab_items =
  ([[("A", of_Z (-5)); ("B", of_Z (-3))]; [("A", neg_inf); ("B", neg_inf)]],
   ["B"; "B"]) /\
  max_first [("A", neg_inf); ("B", neg_inf)] "A" /\
  ~ max_first [("A", neg_inf); ("B", neg_inf)] "B".
Proof.
  split; [reflexivity |]. split.
  - exists [], neg_inf, [("B", neg_inf)]. split; [reflexivity |].
    split; [intros ? ? [] |].
    intros w v [I | []]. injection I as _ <-. reflexivity.
  - intros (pre & v & post & E & Hpre & _).
    destruct pre as [| p pre].
    + simpl in E. discriminate E.
    + simpl in E. injection E as <- E.
      destruct pre as [| q pre].
      * simpl in E. injection E as <- _.
        specialize (Hpre "A" neg_inf (or_introl eq_refl)). discriminate Hpre.
      * simpl in E. injection E as _ E. destruct pre; discriminate E.
Qed.

(** ** Reproducibility *)

(** The fit of [base_model] is the only one that passes the seed. *)
Lemma base_params_seeded {B : Backend} (self : ModelSelector.t) (n : Z) :
  GaussianHMM.random_state (ModelSelector.base_params self n) =
  Some (ModelSelector.random_state self) /\
  GaussianHMM.random_state (GaussianHMM.new n) = None.
Proof. split; reflexivity. Qed.

(** X20: with a fit that is a function of its arguments when it is given
    a seed, SelectorConstant returns the same thing from any two
    states. *)
Lemma constant_select_reproducible {B : Backend} (self : ModelSelector.t) (w w' : World) :
  (forall h X lengths g g',
     GaussianHMM.random_state h <> None ->
     fst (hmm_fit h X lengths g) = fst (hmm_fit h X lengths g')) ->
  fst (SelectorConstant.select self w) = fst (SelectorConstant.select self w').
Proof.
  intros Det. unfold SelectorConstant.select.
  rewrite !base_model_result.
  rewrite (Det _ _ _ (rng w) (rng w')); [reflexivity | discriminate].
Qed.

(** X20 at the example backend, whose unseeded fit reads the generator *)
Lemma constant_select_reproducible_witness :
  fst (SelectorConstant.select Examples.drawn Toy.w0) =
  fst (SelectorConstant.select Examples.drawn
         (@mkWorld (Toy.backend Examples.drawn_table) 5%nat [EvSplit])).
Proof.
  apply (@constant_select_reproducible (Toy.backend Examples.drawn_table)).
  intros h X lengths g g' Hs. simpl. unfold Toy.fit.
  destruct (_ || _); trivial.
  destruct (GaussianHMM.random_state h); [reflexivity | congruence].
Defined.

(** C9: a backend whose fit is a function of its arguments, and leaves
    the global generator alone, when it is given a seed, and draws from
    the global generator when it is not; the candidates of SelectorBIC
    are fitted without the seed, and two calls of [select] on one
    instance, one after the other, return a model of two states and then
    a model of three. *)
Theorem BIC_select_twice_differs :
  (forall n cov iters seed X lengths g g',
     Toy.fit (GaussianHMM.mk n cov iters (Some seed)) X lengths g' =
     (fst (Toy.fit (GaussianHMM.mk n cov iters (Some seed)) X lengths g), g')) /\
  let first := SelectorBIC.select Examples.drawn Toy.w0 in
  let second := SelectorBIC.select Examples.drawn (snd first) in
  fst first =
    Ok (Some (@mkModel (Toy.backend Examples.drawn_table)
                (ModelSelector.base_params Examples.drawn 2) (2, 0%nat))) /\
  fst second =
    Ok (Some (@mkModel (Toy.backend Examples.drawn_table)
                (ModelSelector.base_params Examples.drawn 3) (3, 0%nat))).
Proof.
  split.
  - intros n cov iters seed X lengths g g'. unfold Toy.fit. simpl.
    destruct (_ || _); reflexivity.
  - split; vm_compute; reflexivity.
Qed.

(** * Further properties of the selectors *)

Section SelectFacts.

Context {B : Backend}.
Import ModelSelector.

Lemma base_model_ok (self : t) (n : Z) (w : World) :
  exists r, fst (base_model self n w) = Ok r.
Proof.
  rewrite base_model_result. destruct (fst (hmm_fit _ _ _ _)); eauto.
Qed.

Lemma base_model_some (self : t) (n : Z) (w : World) (m : Model) :
  fst (base_model self n w) = Ok (Some m) -> hyper m = base_params self n.
Proof.
  rewrite base_model_result. destruct (fst (hmm_fit _ _ _ _)); [| discriminate].
  intros E. injection E as <-. reflexivity.
Qed.

Lemma pick_snd_in (better : float -> float -> bool) (rs : list (Z * outcome float))
    (st : float * Z) :
  snd (pick better rs st) = snd st \/ In (snd (pick better rs st)) (map fst rs).
Proof.
  revert st. induction rs as [| [n [c | e]] rs IH]; intros st; simpl.
  - now left.
  - destruct (IH (if better c (fst st) then (c, n) else st)) as [E | I].
    + rewrite E. destruct (better c (fst st)); simpl; auto.
    + auto.
  - destruct (IH st); auto.
Qed.

Lemma outcomes_keys (criterion : Z -> M float) (ns : list Z) (w : World) :
  map fst (outcomes criterion ns w) = ns.
Proof.
  revert w. induction ns as [| n ns IH]; intros w; simpl; [| rewrite IH]; reflexivity.
Qed.

(** the number of states a search over the candidates ends with *)
Lemma pick_candidate_or_start (better : float -> float -> bool) (criterion : Z -> M float)
    (self : t) (w : World) (start : float * Z) :
  let best := snd (pick better (outcomes criterion (candidates self) w) start) in
  best = snd start \/ min_n_components self <= best <= max_n_components self.
Proof.
  intros best. destruct (pick_snd_in better (outcomes criterion (candidates self) w) start)
    as [E | I]; [now left | right].
  rewrite outcomes_keys in I. now apply candidates_spec in I.
Qed.

Lemma BIC_select_run (self : t) (w : World) :
  SelectorBIC.select self w =
  base_model self
    (snd (pick lt (outcomes (SelectorBIC.criterion self) (candidates self) w) (inf, 0)))
    (after (SelectorBIC.criterion self) (candidates self) w).
Proof. unfold SelectorBIC.select, bind. rewrite BIC_search. reflexivity. Qed.

Lemma DIC_select_run (self : t) (w : World) :
  SelectorDIC.select self w =
  base_model self
    (snd (pick gt (outcomes (SelectorDIC.criterion self) (candidates self) w) (neg_inf, 0)))
    (after (SelectorDIC.criterion self) (candidates self) w).
Proof. unfold SelectorDIC.select, bind. rewrite DIC_search. reflexivity. Qed.

Lemma CV_select_run (self : t) (w : World) :
  (3 <= List.length (sequences self))%nat ->
  SelectorCV.select self w =
  base_model self
    (snd (pick gt (outcomes (SelectorCV.criterion self) (candidates self) w) (neg_inf, 0)))
    (after (SelectorCV.criterion self) (candidates self) w).
Proof. intros H. unfold SelectorCV.select, bind. rewrite (CV_search self w H). reflexivity. Qed.

Lemma CV_select_short (self : t) (w : World) :
  (List.length (sequences self) < 3)%nat ->
  SelectorCV.select self w = base_model self 3 w.
Proof.
  intros H. unfold SelectorCV.select, SelectorCV.search, bind.
  destruct (Nat.leb_spec 3 (List.length (sequences self))); [lia | reflexivity].
Qed.

End SelectFacts.

(** X1: [select] of the four selectors returns and does not raise, whatever
    the library calls do: every exception of a candidate is caught in
    the loop and [base_model] catches its own. *)
Theorem select_never_raises {B : Backend} (self : ModelSelector.t) (w : World) :
  (exists r, fst (SelectorConstant.select self w) = Ok r) /\
  (exists r, fst (SelectorBIC.select self w) = Ok r) /\
  (exists r, fst (SelectorDIC.select self w) = Ok r) /\
  (exists r, fst (SelectorCV.select self w) = Ok r).
Proof.
  repeat split.
  - apply base_model_ok.
  - rewrite BIC_select_run. apply base_model_ok.
  - rewrite DIC_select_run. apply base_model_ok.
  - destruct (Nat.leb_spec 3 (List.length (ModelSelector.sequences self))) as [H | H].
    + rewrite (CV_select_run self w H). apply base_model_ok.
    + rewrite (CV_select_short self w H). apply base_model_ok.
Qed.

(** X2: a model that [select] returns was built by [base_model]: diagonal
    covariance, 1000 iterations, the seed of the instance, and a number
    of states that is [n_constant] for SelectorConstant, 0 or a candidate
    of [min_n_components .. max_n_components] for SelectorBIC and
    SelectorDIC, and 0, 3 or a candidate for SelectorCV. *)
Theorem select_model_provenance {B : Backend} (self : ModelSelector.t) (w : World)
    (m : Model) :
  let n := GaussianHMM.n_components (hyper m) in
  let in_range :=
    ModelSelector.min_n_components self <= n <= ModelSelector.max_n_components self in
  (fst (SelectorConstant.select self w) = Ok (Some m) ->
   hyper m = ModelSelector.base_params self n /\ n = ModelSelector.n_constant self) /\
  (fst (SelectorBIC.select self w) = Ok (Some m) ->
   hyper m = ModelSelector.base_params self n /\ (n = 0 \/ in_range)) /\
  (fst (SelectorDIC.select self w) = Ok (Some m) ->
   hyper m = ModelSelector.base_params self n /\ (n = 0 \/ in_range)) /\
  (fst (SelectorCV.select self w) = Ok (Some m) ->
   hyper m = ModelSelector.base_params self n /\ (n = 0 \/ n = 3 \/ in_range)).
Proof.
  intros n in_range. unfold in_range, n. clear n in_range. repeat split.
  - apply base_model_some in H. rewrite H. reflexivity.
  - apply base_model_some in H. rewrite H. reflexivity.
  - rewrite BIC_select_run in H. apply base_model_some in H. rewrite H. reflexivity.
  - rewrite BIC_select_run in H. apply base_model_some in H. rewrite H. simpl.
    apply (pick_candidate_or_start lt (SelectorBIC.criterion self) self w (inf, 0)).
  - rewrite DIC_select_run in H. apply base_model_some in H. rewrite H. reflexivity.
  - rewrite DIC_select_run in H. apply base_model_some in H. rewrite H. simpl.
    apply (pick_candidate_or_start gt (SelectorDIC.criterion self) self w (neg_inf, 0)).
  - destruct (Nat.leb_spec 3 (List.length (ModelSelector.sequences self))) as [L | L].
    + rewrite (CV_select_run self w L) in H. apply base_model_some in H.
      rewrite H. reflexivity.
    + rewrite (CV_select_short self w L) in H. apply base_model_some in H.
      rewrite H. reflexivity.
  - destruct (Nat.leb_spec 3 (List.length (ModelSelector.sequences self))) as [L | L].
    + rewrite (CV_select_run self w L) in H. apply base_model_some in H.
      rewrite H. simpl.
      destruct (pick_candidate_or_start gt (SelectorCV.criterion self) self w (neg_inf, 0));
        auto.
    + rewrite (CV_select_short self w L) in H. apply base_model_some in H.
      rewrite H. simpl. auto.
Qed.

(** X2 at the word "CAT": the model SelectorBIC returns has one of the
    candidate numbers of states and the seed 14 *)
Lemma select_model_provenance_witness :
  let m := @mkModel (Toy.backend Examples.cat_table)
             (ModelSelector.base_params Examples.cat 3) (3, 0%nat) in
  hyper m = ModelSelector.base_params Examples.cat 3 /\ (3 = 0 \/ 2 <= 3 <= 4).
Proof.
  intros m.
  apply (proj1 (proj2 (select_model_provenance Examples.cat Toy.w0 m))).
  reflexivity.
Defined.

(** ** The fits a selection makes *)

Section FitTrace.

Context {B : Backend}.
Import ModelSelector.





End FitTrace.


Lemma range_empty (lo hi : Z) : hi <= lo -> range lo hi = [].
Proof.
  intros H. unfold range. replace (Z.to_nat (hi - lo)) with 0%nat by lia. reflexivity.
Qed.

(** X4: with [max_n_components] below [min_n_components] there is no
    candidate: SelectorBIC and SelectorDIC return [base_model(0)] from
    the state they start in, and so does SelectorCV when there are at
    least three sequences ([base_model(3)] otherwise). *)
Theorem select_without_candidates {B : Backend} (self : ModelSelector.t) (w : World) :
  ModelSelector.max_n_components self < ModelSelector.min_n_components self ->
  SelectorBIC.select self w = ModelSelector.base_model self 0 w /\
  SelectorDIC.select self w = ModelSelector.base_model self 0 w /\
  SelectorCV.select self w =
  ModelSelector.base_model self
    (if (3 <=? List.length (ModelSelector.sequences self))%nat then 0 else 3) w.
Proof.
  intros H.
  assert (E : ModelSelector.candidates self = []).
  { unfold ModelSelector.candidates. apply range_empty. lia. }
  repeat split.
  - rewrite BIC_select_run, E. reflexivity.
  - rewrite DIC_select_run, E. reflexivity.
  - destruct (Nat.leb_spec 3 (List.length (ModelSelector.sequences self))) as [L | L].
    + rewrite (CV_select_run self w L), E. reflexivity.
    + apply (CV_select_short self w L).
Qed.

(** X4 at a selector with the candidates 5 .. 4 *)
Lemma select_without_candidates_witness :
  SelectorBIC.select MoreExamples.no_candidate Toy.w0 =
  ModelSelector.base_model MoreExamples.no_candidate 0 Toy.w0.
Proof.
  apply (select_without_candidates MoreExamples.no_candidate Toy.w0). reflexivity.
Defined.

(** ** Ties: the first optimum wins *)

Lemma float_lt_le_trans (x y z : float) : lt x y = true -> le y z = true -> lt x z = true.
Proof.
  rewrite FloatOrder.le_rank, !FloatOrder.lt_rank.
  intros (a & b & Ha & Hb & L1) (b' & c & Hb' & Hc & L2).
  rewrite Hb in Hb'. injection Hb' as <-.
  exists a, c. repeat split; trivial.
  destruct L2 as [L2 | <-]; trivial. eapply FloatOrder.lex3_trans; eauto.
Qed.

(** a value that is not NaN and does not beat [y] is beaten by whatever
    beats [y] *)
Lemma lt_beats (x y z : float) :
  lt x y = true -> lt z y = false -> is_nan z = false -> lt x z = true.
Proof.
  intros Hxy Hzy Nz.
  destruct (FloatOrder.lt_not_nan _ _ Hxy) as [_ Ny].
  eapply float_lt_le_trans; [exact Hxy |].
  now apply FloatOrder.not_lt_le.
Qed.

Lemma gt_beats (x y z : float) :
  gt x y = true -> gt z y = false -> is_nan z = false -> gt x z = true.
Proof.
  unfold gt. intros Hxy Hzy Nz.
  destruct (FloatOrder.lt_not_nan _ _ Hxy) as [Ny _].
  eapply FloatOrder.le_lt_trans; [| exact Hxy].
  now apply FloatOrder.not_lt_le.
Qed.

Section FirstOptimum.

Variable better : float -> float -> bool.
Hypothesis better_irrefl : forall x, better x x = false.
Hypothesis better_trans :
  forall x y z, better x y = true -> better y z = true -> better x z = true.
Hypothesis better_beats :
  forall x y z, better x y = true -> better z y = false -> is_nan z = false ->
                better x z = true.

(** When the selection moves, it ends on an outcome that beats the start
    and every outcome before it that is a number, and that no outcome
    after it beats. *)
Lemma pick_first (rs : list (Z * outcome float)) (st : float * Z) :
  pick better rs st = st \/
  exists pre post,
    rs = pre ++ (snd (pick better rs st), Ok (fst (pick better rs st))) :: post /\
    better (fst (pick better rs st)) (fst st) = true /\
    (forall n c, In (n, Ok c) pre -> is_nan c = false ->
                 better (fst (pick better rs st)) c = true) /\
    (forall n c, In (n, Ok c) post -> better c (fst (pick better rs st)) = false).
Proof.
  revert st. induction rs as [| [m [c0 | e]] rs IH]; intros st; simpl.
  - now left.
  - destruct (better c0 (fst st)) eqn:Hc.
    + right. destruct (IH (c0, m)) as [E | (pre & post & Ers & Bt & Hpre & Hpost)].
      * exists [], rs. rewrite E. simpl. repeat split; trivial; try tauto.
        intros n c I.
        destruct (pick_spec better better_irrefl better_trans rs (c0, m)) as [_ A].
        specialize (A n c I). rewrite E in A. exact A.
      * exists ((m, Ok c0) :: pre), post. simpl in *.
        split; [now rewrite <- Ers |].
        split; [eapply better_trans; eauto |]. split; trivial.
        intros n c [I | I] Nc; [| eauto].
        injection I as _ <-. exact Bt.
    + destruct (IH st) as [E | (pre & post & Ers & Bt & Hpre & Hpost)]; [now left |].
      right. exists ((m, Ok c0) :: pre), post. simpl.
      split; [now rewrite <- Ers |]. split; trivial. split; trivial.
      intros n c [I | I] Nc; [| eauto].
      injection I as _ <-. eapply better_beats; eauto.
  - destruct (IH st) as [E | (pre & post & Ers & Bt & Hpre & Hpost)]; [now left |].
    right. exists ((m, Raised e) :: pre), post. simpl. split; [now rewrite <- Ers |].
    split; trivial. split; trivial.
    intros n c [I | I] Nc; [discriminate | eauto].
Qed.

End FirstOptimum.

Lemma range_cons (lo hi : Z) : lo < hi -> range lo hi = lo :: range (lo + 1) hi.
Proof.
  intros H. unfold range.
  replace (Z.to_nat (hi - lo)) with (S (Z.to_nat (hi - (lo + 1)))) by lia.
  cbn [seq map]. rewrite Z.add_0_r. f_equal.
  rewrite <- seq_shift, map_map. apply map_ext. intros i. lia.
Qed.

Lemma range_sorted (lo hi : Z) : StronglySorted Z.lt (range lo hi).
Proof.
  remember (Z.to_nat (hi - lo)) as k eqn:Ek. revert lo Ek.
  induction k as [| k IH]; intros lo Ek.
  - rewrite range_empty by lia. constructor.
  - rewrite range_cons by lia. constructor.
    + apply IH. lia.
    + apply Forall_forall. intros m I. apply range_spec in I. lia.
Qed.

Lemma sorted_split {A : Type} (R : A -> A -> Prop) (l1 l2 : list A) (x : A) :
  StronglySorted R (l1 ++ x :: l2) ->
  (forall m, In m l1 -> R m x) /\ (forall m, In m l2 -> R x m).
Proof.
  induction l1 as [| a l1 IH]; simpl; intros S.
  - apply StronglySorted_inv in S. destruct S as [_ F].
    split; [tauto |]. now apply Forall_forall.
  - apply StronglySorted_inv in S. destruct S as [S F].
    destruct (IH S) as [H1 H2]. split; trivial.
    intros m [<- | I]; [| auto].
    rewrite Forall_forall in F. apply F. apply in_or_app. right. now left.
Qed.

(** The search over the candidates, which come in increasing order: when
    it ends on a value that beats the initial one, that value is the
    outcome of the chosen candidate and beats the outcome of every
    smaller candidate that is a number. *)
Lemma search_first_optimum {B : Backend} (better : float -> float -> bool)
    (criterion : Z -> M float) (self : ModelSelector.t) (w : World)
    (start c : float) (best : Z) :
  (forall x, better x x = false) ->
  (forall x y z, better x y = true -> better y z = true -> better x z = true) ->
  (forall x y z, better x y = true -> better z y = false -> is_nan z = false ->
                 better x z = true) ->
  pick better (outcomes criterion (ModelSelector.candidates self) w) (start, 0) = (c, best) ->
  better c start = true ->
  In (best, Ok c) (outcomes criterion (ModelSelector.candidates self) w) /\
  forall n c', In (n, Ok c') (outcomes criterion (ModelSelector.candidates self) w) ->
               n < best -> is_nan c' = false -> better c c' = true.
Proof.
  intros Irr Tr Bt P Hc.
  set (rs := outcomes criterion (ModelSelector.candidates self) w) in *.
  destruct (pick_first better Irr Tr Bt rs (start, 0))
    as [E | (pre & post & Ers & _ & Hpre & _)].
  - rewrite P in E. injection E as -> _. now rewrite Irr in Hc.
  - rewrite P in Ers, Hpre. simpl in Ers, Hpre.
    assert (K : ModelSelector.candidates self = map fst pre ++ best :: map fst post).
    { unfold rs in Ers. rewrite <- (outcomes_keys criterion (ModelSelector.candidates self) w).
      rewrite Ers, map_app. reflexivity. }
    pose proof (range_sorted (ModelSelector.min_n_components self)
                  (ModelSelector.max_n_components self + 1)) as S.
    fold (ModelSelector.candidates self) in S. rewrite K in S.
    destruct (sorted_split Z.lt _ _ _ S) as [_ Hafter].
    split.
    + rewrite Ers. apply in_or_app. right. now left.
    + intros n c' I Hn Nc. rewrite Ers in I. apply in_app_or in I.
      destruct I as [I | [I | I]].
      * eauto.
      * injection I as -> _. lia.
      * assert (best < n) by (apply Hafter; apply (in_map fst post (n, Ok c') I)). lia.
Qed.

(** X5: when several candidates have the minimal BIC, SelectorBIC keeps
    the one with the fewest states: if the search ends on [(c, best)]
    with [c] below the initial [+inf], then [c] is the BIC of [best] and
    every candidate with fewer states whose BIC is a number has a BIC
    strictly above [c]. *)
Theorem BIC_fewest_states_on_ties {B : Backend} (self : ModelSelector.t) (w : World)
    (c : float) (best : Z) :
  let rs := outcomes (SelectorBIC.criterion self) (ModelSelector.candidates self) w in
  fst (SelectorBIC.search self w) = Ok (c, best) ->
  lt c inf = true ->
  In (best, Ok c) rs /\
  forall n c', In (n, Ok c') rs -> n < best -> is_nan c' = false -> lt c c' = true.
Proof.
  intros rs Hs Hc. rewrite BIC_search in Hs. simpl in Hs. injection Hs as Hs.
  apply (search_first_optimum lt (SelectorBIC.criterion self) self w inf c best
           FloatOrder.lt_irrefl FloatOrder.lt_trans lt_beats Hs Hc).
Qed.

(** X5 at two candidates with the same BIC 14: two states are kept *)
Lemma BIC_fewest_states_on_ties_witness :
  In (2, Ok (of_Z 14))
    (outcomes (SelectorBIC.criterion MoreExamples.even)
       (ModelSelector.candidates MoreExamples.even) Toy.w0) /\
  In (3, Ok (of_Z 14))
    (outcomes (SelectorBIC.criterion MoreExamples.even)
       (ModelSelector.candidates MoreExamples.even) Toy.w0).
Proof.
  split.
  - apply (BIC_fewest_states_on_ties MoreExamples.even Toy.w0 (of_Z 14) 2);
      vm_compute; reflexivity.
  - right. left. vm_compute. reflexivity.
Defined.

(** X6: when several candidates have the maximal DIC, SelectorDIC keeps
    the one with the fewest states: if the search ends on [(c, best)]
    with [c] above the initial [-inf], then [c] is the DIC of [best] and
    every candidate with fewer states whose DIC is a number has a DIC
    strictly below [c]. *)
Theorem DIC_fewest_states_on_ties {B : Backend} (self : ModelSelector.t) (w : World)
    (c : float) (best : Z) :
  let rs := outcomes (SelectorDIC.criterion self) (ModelSelector.candidates self) w in
  fst (SelectorDIC.search self w) = Ok (c, best) ->
  gt c neg_inf = true ->
  In (best, Ok c) rs /\
  forall n c', In (n, Ok c') rs -> n < best -> is_nan c' = false -> gt c c' = true.
Proof.
  intros rs Hs Hc. rewrite DIC_search in Hs. simpl in Hs. injection Hs as Hs.
  apply (search_first_optimum gt (SelectorDIC.criterion self) self w neg_inf c best
           gt_irrefl gt_trans gt_beats Hs Hc).
Qed.

(** X6 at two candidates with the same DIC 0: two states are kept *)
Lemma DIC_fewest_states_on_ties_witness :
  In (2, Ok zero)
    (outcomes (SelectorDIC.criterion MoreExamples.even)
       (ModelSelector.candidates MoreExamples.even) Toy.w0) /\
  In (3, Ok zero)
    (outcomes (SelectorDIC.criterion MoreExamples.even)
       (ModelSelector.candidates MoreExamples.even) Toy.w0).
Proof.
  split.
  - apply (DIC_fewest_states_on_ties MoreExamples.even Toy.w0 zero 2);
      vm_compute; reflexivity.
  - right. left. vm_compute. reflexivity.
Defined.

(** ** Cross-validation with at least three sequences *)

(** X7: with at least three sequences SelectorCV chooses, among the
    candidates whose folds all trained and scored and whose average is
    strictly above [-inf], one that no candidate's average is strictly
    above, and returns [base_model] of it; the choice is the sentinel 0
    when there is no such candidate. *)
Theorem CV_select_maximum {B : Backend} (self : ModelSelector.t) (w : World) :
  (3 <= List.length (ModelSelector.sequences self))%nat ->
  let rs := outcomes (SelectorCV.criterion self) (ModelSelector.candidates self) w in
  let w' := after (SelectorCV.criterion self) (ModelSelector.candidates self) w in
  exists best,
    sentinel_choice gt neg_inf rs best /\
    (best = 0 \/
     ModelSelector.min_n_components self <= best <= ModelSelector.max_n_components self) /\
    SelectorCV.select self w = ModelSelector.base_model self best w'.
Proof.
  intros H rs w'. exists (snd (pick gt rs (neg_inf, 0))). split; [| split].
  - apply pick_sentinel_choice; [apply gt_irrefl | apply gt_trans].
  - apply (pick_candidate_or_start gt (SelectorCV.criterion self) self w (neg_inf, 0)).
  - apply (CV_select_run self w H).
Qed.

(** X7 at three sequences: the candidate with two states has a failing
    fold, the one with three states has the average -30 and is chosen *)
Lemma CV_select_maximum_witness :
  exists best c,
    In (best, Ok c) (outcomes (SelectorCV.criterion Examples.three)
                       (ModelSelector.candidates Examples.three) Toy.w0) /\
    gt c neg_inf = true /\
    SelectorCV.select Examples.three Toy.w0 =
    ModelSelector.base_model Examples.three best
      (after (SelectorCV.criterion Examples.three)
         (ModelSelector.candidates Examples.three) Toy.w0).
Proof.
  destruct (CV_select_maximum Examples.three Toy.w0) as (best & [Ch _] & _ & Sel).
  - simpl. lia.
  - destruct Ch as (c & I & G & _).
    + exists 3, (of_Z (-30)). split; [right; left |]; reflexivity.
    + exists best, c. auto.
Defined.

(** X8: when several candidates have the maximal average, SelectorCV
    keeps the one with the fewest states. *)
Theorem CV_fewest_states_on_ties {B : Backend} (self : ModelSelector.t) (w : World)
    (c : float) (best : Z) :
  let rs := outcomes (SelectorCV.criterion self) (ModelSelector.candidates self) w in
  (3 <= List.length (ModelSelector.sequences self))%nat ->
  fst (SelectorCV.search self w) = Ok (c, best) ->
  gt c neg_inf = true ->
  In (best, Ok c) rs /\
  forall n c', In (n, Ok c') rs -> n < best -> is_nan c' = false -> gt c c' = true.
Proof.
  intros rs H Hs Hc. rewrite (CV_search self w H) in Hs. simpl in Hs. injection Hs as Hs.
  apply (search_first_optimum gt (SelectorCV.criterion self) self w neg_inf c best
           gt_irrefl gt_trans gt_beats Hs Hc).
Qed.

(** X8 at three sequences and two candidates with the same average -30:
    two states are kept *)
Lemma CV_fewest_states_on_ties_witness :
  In (2, Ok (of_Z (-30)))
    (outcomes (SelectorCV.criterion MoreExamples.tied)
       (ModelSelector.candidates MoreExamples.tied) Toy.w0) /\
  In (3, Ok (of_Z (-30)))
    (outcomes (SelectorCV.criterion MoreExamples.tied)
       (ModelSelector.candidates MoreExamples.tied) Toy.w0) /\
  fst (SelectorCV.search MoreExamples.tied Toy.w0) = Ok (of_Z (-30), 2).
Proof.
  split; [| split].
  - apply (CV_fewest_states_on_ties MoreExamples.tied Toy.w0 (of_Z (-30)) 2).
    + simpl. lia.
    + vm_compute. reflexivity.
    + vm_compute. reflexivity.
  - right. left. vm_compute. reflexivity.
  - vm_compute. reflexivity.
Defined.

Lemma search_all_raised {B : Backend} (better : float -> float -> bool)
    (criterion : Z -> M float) (ns : list Z) (w : World) (start : float * Z) :
  (forall n w1, exists e, fst (criterion n w1) = Raised e) ->
  pick better (outcomes criterion ns w) start = start.
Proof.
  intros H. apply pick_all_raised.
  apply (outcomes_all criterion (fun r => exists e, r = Raised e)). exact H.
Qed.

(** X9: when [KFold().split] raises on the sequences (more splits than
    samples, say), every candidate is skipped: with at least three
    sequences the search ends on the sentinel 0 and [select] returns
    [base_model(0)]. *)
Theorem CV_split_failure {B : Backend} (self : ModelSelector.t) (w : World) (e : exn) :
  (3 <= List.length (ModelSelector.sequences self))%nat ->
  KFold_split (List.length (ModelSelector.sequences self)) = Raised e ->
  (forall n w1, fst (SelectorCV.criterion self n w1) = Raised e) /\
  fst (SelectorCV.search self w) = Ok (neg_inf, 0) /\
  SelectorCV.select self w =
  ModelSelector.base_model self 0
    (after (SelectorCV.criterion self) (ModelSelector.candidates self) w).
Proof.
  intros H Hk.
  assert (C : forall n w1, fst (SelectorCV.criterion self n w1) = Raised e).
  { intros n w1. unfold SelectorCV.criterion, bind. rewrite split_run, Hk. reflexivity. }
  assert (P : pick gt (outcomes (SelectorCV.criterion self) (ModelSelector.candidates self) w)
                (neg_inf, 0) = (neg_inf, 0)).
  { apply search_all_raised. intros n w1. exists e. apply C. }
  split; [exact C |]. split.
  - rewrite (CV_search self w H), P. reflexivity.
  - rewrite (CV_select_run self w H), P. reflexivity.
Qed.

(** X9 at four sequences, which the example backend does not split *)
Lemma CV_split_failure_witness :
  fst (SelectorCV.search MoreExamples.four Toy.w0) = Ok (neg_inf, 0) /\
  fst (SelectorCV.select MoreExamples.four Toy.w0) = Ok None.
Proof.
  destruct (CV_split_failure MoreExamples.four Toy.w0 ValueError) as (_ & S & Sel).
  - simpl. lia.
  - reflexivity.
  - split; [exact S |]. rewrite Sel. reflexivity.
Defined.

(** ** SelectorDIC and the two dicts *)

Lemma scores_on_missing {B : Backend} (self : ModelSelector.t) (model : Model)
    (ws : list string) (word : string) :
  In word ws -> dict_get (ModelSelector.hwords self) word = None ->
  exists e, SpecDIC.scores_on self model ws = Raised e.
Proof.
  intros I Hn. induction ws as [| w0 ws IH]; [destruct I |].
  simpl. destruct (dict_get (ModelSelector.hwords self) w0) as [[X0 l0] |] eqn:Hg.
  - destruct I as [-> | I]; [congruence |].
    destruct (score model X0 l0); [| eauto].
    destruct (IH I) as [e ->]. eauto.
  - eauto.
Qed.

(** X10: when a word of [self.words] other than [this_word] has no entry
    in [self.hwords], no candidate gets a DIC: each one raises (KeyError
    at the latest), the search ends on the sentinel 0 and [select]
    returns [base_model(0)]. *)
Theorem DIC_missing_Xlengths {B : Backend} (self : ModelSelector.t) (w : World)
    (word : string) :
  In word (dict_keys (ModelSelector.words self)) ->
  word <> ModelSelector.this_word self ->
  dict_get (ModelSelector.hwords self) word = None ->
  (forall n w1, exists e, fst (SelectorDIC.criterion self n w1) = Raised e) /\
  fst (SelectorDIC.search self w) = Ok (neg_inf, 0) /\
  SelectorDIC.select self w =
  ModelSelector.base_model self 0
    (after (SelectorDIC.criterion self) (ModelSelector.candidates self) w).
Proof.
  intros I Hd Hn.
  assert (O : In word (SpecDIC.other_words self)).
  { unfold SpecDIC.other_words. apply filter_In. split; trivial.
    destruct (String.eqb_spec word (ModelSelector.this_word self)); [contradiction | reflexivity]. }
  assert (C : forall n w1, exists e, fst (SelectorDIC.criterion self n w1) = Raised e).
  { intros n w1. rewrite DIC_criterion_value. unfold SpecDIC.value.
    destruct (fst (hmm_fit _ _ _ _)) as [th | e]; [| eauto].
    destruct (score _ _ _); [| eauto].
    destruct (scores_on_missing self (mkModel (GaussianHMM.new n) th) _ word O Hn) as [e ->].
    eauto. }
  assert (P : pick gt (outcomes (SelectorDIC.criterion self) (ModelSelector.candidates self) w)
                (neg_inf, 0) = (neg_inf, 0)).
  { apply search_all_raised. exact C. }
  split; [exact C |]. split.
  - rewrite DIC_search, P. reflexivity.
  - rewrite DIC_select_run, P. reflexivity.
Qed.

(** X10 at the words "CAT" and "DOG" with no data for "DOG" *)
Lemma DIC_missing_Xlengths_witness :
  fst (SelectorDIC.search MoreExamples.orphan Toy.w0) = Ok (neg_inf, 0) /\
  fst (SelectorDIC.select MoreExamples.orphan Toy.w0) = Ok None.
Proof.
  destruct (DIC_missing_Xlengths MoreExamples.orphan Toy.w0 "DOG") as (_ & S & Sel).
  - right. left. reflexivity.
  - discriminate.
  - reflexivity.
  - split; [exact S |]. rewrite Sel. reflexivity.
Defined.

(** * Further properties of recognize *)

Section RecognizeMore.

Context {B : Backend}.

Lemma item_loop_lengths (models : dict (option Model))
    (items : list (Z * (list Row * list Z))) (st : list (dict float) * list string * string) :
  List.length (fst (fst (fold_left (Recognizer.item_step models) items st))) =
    (List.length (fst (fst st)) + List.length items)%nat /\
  List.length (snd (fst (fold_left (Recognizer.item_step models) items st))) =
    (List.length (snd (fst st)) + List.length items)%nat.
Proof.
  revert st. induction items as [| [key [X lengths]] items IH]; intros [[ps gs] bw].
  - simpl. lia.
  - cbn [fold_left]. destruct (IH (Recognizer.item_step models (ps, gs, bw) (key, (X, lengths))))
      as [H1 H2].
    rewrite H1, H2. unfold Recognizer.item_step.
    destruct (fold_left _ models _) as [[mx g] pd]. simpl.
    rewrite !length_app. simpl. lia.
Qed.

Lemma scores_of_keys (models : dict (option Model)) (X : list Row) (lengths : list Z) :
  dict_keys (scores_of models X lengths) = dict_keys models.
Proof.
  unfold scores_of, dict_keys. rewrite map_map. apply map_ext. reflexivity.
Qed.

Lemma best_of_cons (w : string) (v : float) (ps : dict float) (st : float * string) :
  best_of ((w, v) :: ps) st = best_of ps (if gt v (fst st) then (v, w) else st).
Proof. reflexivity. Qed.

Lemma best_of_word (ps : dict float) (st : float * string) :
  snd (best_of ps st) = snd st \/ In (snd (best_of ps st)) (dict_keys ps).
Proof.
  revert st. induction ps as [| [w v] ps IH]; intros st; [now left |].
  rewrite best_of_cons.
  destruct (IH (if gt v (fst st) then (v, w) else st)) as [E | I].
  - rewrite E. destruct (gt v (fst st)); simpl; auto.
  - right. now right.
Qed.

Lemma best_of_unmoved (ps : dict float) (mx : float) (bw : string) :
  (forall w v, In (w, v) ps -> gt v mx = false) -> best_of ps (mx, bw) = (mx, bw).
Proof.
  induction ps as [| [w v] ps IH]; intros H; [reflexivity |].
  rewrite best_of_cons. cbn [fst].
  rewrite (H w v) by now left. apply IH. intros w' v' I. apply (H w' v'). now right.
Qed.

Lemma guesses_from_words (models : dict (option Model))
    (items : list (Z * (list Row * list Z))) (bw g : string) :
  bw = "" \/ In bw (dict_keys models) ->
  In g (guesses_from models items bw) -> g = "" \/ In g (dict_keys models).
Proof.
  revert bw. induction items as [| [key [X lengths]] items IH]; intros bw Hb; simpl; [tauto |].
  assert (Hg : snd (best_of (scores_of models X lengths) (neg_inf, bw)) = "" \/
               In (snd (best_of (scores_of models X lengths) (neg_inf, bw)))
                  (dict_keys models)).
  { destruct (best_of_word (scores_of models X lengths) (neg_inf, bw)) as [E | I].
    - rewrite E. exact Hb.
    - right. now rewrite scores_of_keys in I. }
  intros [<- | I]; [exact Hg | eauto].
Qed.

(** the guess of an item, from the guess of the item before *)
Lemma guesses_from_prev (models : dict (option Model))
    (items : list (Z * (list Row * list Z))) (bw : string) (i : nat)
    (key : Z) (X : list Row) (lengths : list Z) :
  nth_error items i = Some (key, (X, lengths)) ->
  nth_error (guesses_from models items bw) i =
  Some (snd (best_of (scores_of models X lengths)
               (neg_inf,
                match i with
                | O => bw
                | S j => nth j (guesses_from models items bw) ""
                end))).
Proof.
  revert bw i. induction items as [| [k [X0 l0]] items IH]; intros bw [| i]; simpl;
    try discriminate.
  - intros E. injection E as _ <- <-. reflexivity.
  - intros E. rewrite (IH _ i E). destruct i; reflexivity.
Qed.

Lemma guesses_from_no_models (items : list (Z * (list Row * list Z))) (bw : string) :
  guesses_from [] items bw = map (fun _ => bw) items.
Proof.
  revert bw. induction items as [| [k [X0 l0]] items IH]; intros bw; simpl; [reflexivity |].
  now rewrite IH.
Qed.

End RecognizeMore.

(** X11: [recognize] returns one mapping and one guess for each test
    item, whatever the models do. *)
Theorem recognize_lengths {B : Backend} (models : dict (option Model))
    (X_all : list (Z * (list Row * list Z))) :
  List.length (fst (Recognizer.recognize models X_all)) = List.length X_all /\
  List.length (snd (Recognizer.recognize models X_all)) = List.length X_all.
Proof.
  unfold Recognizer.recognize.
  pose proof (item_loop_lengths models X_all ([], [], "")) as [H1 H2].
  destruct (fold_left _ X_all _) as [[ps gs] bw]. simpl in *. split; assumption.
Qed.

(** X12: the mapping of an item has the labels of [models], in their
    order, and under each label the log-likelihood its model returned for
    the item, unchanged. *)
Theorem recognize_records_scores {B : Backend} (models : dict (option Model))
    (X_all : list (Z * (list Row * list Z))) (i : nat) (key : Z) (X : list Row)
    (lengths : list Z) (prob : dict float) :
  dict_wf models ->
  nth_error X_all i = Some (key, (X, lengths)) ->
  nth_error (fst (Recognizer.recognize models X_all)) i = Some prob ->
  dict_keys prob = dict_keys models /\
  forall word model logL,
    dict_get models word = Some model ->
    Recognizer.score_entry model X lengths = Ok logL ->
    dict_get prob word = Some logL.
Proof.
  intros N Hi Hp. rewrite (recognize_run models X_all N) in Hp. simpl in Hp.
  rewrite nth_error_map, Hi in Hp. simpl in Hp. injection Hp as <-.
  split; [apply scores_of_keys |].
  intros word model logL Hm Hs. unfold scores_of.
  rewrite (dict_get_map (fun m => Recognizer.try_score m X lengths)), Hm. simpl.
  unfold Recognizer.try_score. now rewrite Hs.
Qed.

(** X12 at the labels "A" and "B": "B" scores -3 on the first item *)
Lemma recognize_records_scores_witness :
  dict_keys [("A", of_Z (-5)); ("B", of_Z (-3))] = ["A"; "B"] /\
  dict_get [("A", of_Z (-5)); ("B", of_Z (-3))] "B" = Some (of_Z (-3)).
Proof.
  destruct (@recognize_records_scores (Toy.backend Examples.ab_table)
              Examples.ab_models Examples.ab_items 0 0 [1] [1]
              [("A", of_Z (-5)); ("B", of_Z (-3))]) as [K V].
  - repeat constructor; simpl; intuition discriminate.
  - reflexivity.
  - reflexivity.
  - split; [exact K |].
    apply (V "B" (Some Examples.model_B) (of_Z (-3))); reflexivity.
Defined.

(** X13: without any model every mapping is empty and every guess is the
    empty string. *)
Theorem recognize_no_models {B : Backend} (X_all : list (Z * (list Row * list Z))) :
  Recognizer.recognize [] X_all =
  (map (fun _ => []) X_all, map (fun _ => "") X_all).
Proof.
  rewrite recognize_run by constructor.
  rewrite guesses_from_no_models. reflexivity.
Qed.

(** X14: a guess is the empty string or a label of [models]: no other
    word is ever guessed. *)
Theorem recognize_guess_is_label {B : Backend} (models : dict (option Model))
    (X_all : list (Z * (list Row * list Z))) (guess : string) :
  dict_wf models ->
  In guess (snd (Recognizer.recognize models X_all)) ->
  guess = "" \/ In guess (dict_keys models).
Proof.
  intros N I. rewrite (recognize_run models X_all N) in I. simpl in I.
  apply (guesses_from_words models X_all "" guess); auto.
Qed.

(** X14 at the labels "A" and "B" *)
Lemma recognize_guess_is_label_witness :
  "B" = "" \/ In "B" (dict_keys Examples.ab_models).
Proof.
  apply (@recognize_guess_is_label (Toy.backend Examples.ab_table)
           Examples.ab_models Examples.ab_items "B").
  - repeat constructor; simpl; intuition discriminate.
  - left. reflexivity.
Defined.

(** X15: when no label scores above [-inf] on an item (every model
    fails, say), the guess of the item is the guess of the item before
    it, and the empty string for the first item. *)
Theorem recognize_guess_carried_over {B : Backend} (models : dict (option Model))
    (X_all : list (Z * (list Row * list Z))) (i : nat) (key : Z) (X : list Row)
    (lengths : list Z) :
  dict_wf models ->
  nth_error X_all i = Some (key, (X, lengths)) ->
  (forall word model, In (word, model) models ->
     gt (Recognizer.try_score model X lengths) neg_inf = false) ->
  nth_error (snd (Recognizer.recognize models X_all)) i =
  Some match i with
       | O => ""
       | S j => nth j (snd (Recognizer.recognize models X_all)) ""
       end.
Proof.
  intros N Hi Low. rewrite (recognize_run models X_all N). simpl.
  rewrite (guesses_from_prev models X_all "" i key X lengths Hi).
  rewrite best_of_unmoved; [reflexivity |].
  intros w v I. unfold scores_of in I. apply in_map_iff in I.
  destruct I as ([w2 m2] & E & I). injection E as <- <-. eauto.
Qed.

(** X15 at the second item of the example, on which both models fail *)
Lemma recognize_guess_carried_over_witness :
  nth_error (snd (Recognizer.recognize Examples.ab_models Examples.ab_items)) 1 =
  Some (nth 0 (snd (Recognizer.recognize Examples.ab_models Examples.ab_items)) "").
Proof.
  apply (@recognize_guess_carried_over (Toy.backend Examples.ab_table)
           Examples.ab_models Examples.ab_items 1 1 [2] [1]).
  - repeat constructor; simpl; intuition discriminate.
  - reflexivity.
  - intros word model [E | [E | []]]; injection E as <- <-; reflexivity.
Defined.

(** * Reproducible selection *)

Section SteadyFacts.

Context {B : Backend}.

Lemma steady_ret {A : Type} (a : A) : steady (ret a).
Proof. intros w w'. reflexivity. Qed.

Lemma steady_raise {A : Type} (e : exn) : steady (@raise B A e).
Proof. intros w w'. reflexivity. Qed.

Lemma steady_lift {A : Type} (o : outcome A) : steady (lift o).
Proof. intros w w'. reflexivity. Qed.

Lemma steady_emit (e : event) : steady (emit e).
Proof. intros w w'. reflexivity. Qed.

Lemma steady_bind {A C : Type} (m : M A) (k : A -> M C) :
  steady m -> (forall a, steady (k a)) -> steady (bind m k).
Proof.
  intros Hm Hk w w'. unfold bind. specialize (Hm w w').
  destruct (m w) as [[a | e] w1], (m w') as [[a' | e'] w1']; simpl in Hm;
    try discriminate Hm.
  - injection Hm as <-. apply Hk.
  - injection Hm as <-. reflexivity.
Qed.

Lemma steady_try_except {A : Type} (m h : M A) :
  steady m -> steady h -> steady (try_except m h).
Proof.
  intros Hm Hh w w'. unfold try_except. specialize (Hm w w').
  destruct (m w) as [[a | e] w1], (m w') as [[a' | e'] w1']; simpl in Hm;
    try discriminate Hm.
  - exact Hm.
  - apply Hh.
Qed.

Lemma steady_for_each {A S : Type} (xs : list A) (body : S -> A -> M S) (s : S) :
  (forall s x, steady (body s x)) -> steady (for_each xs body s).
Proof.
  intros Hb. revert s. induction xs as [| x xs IH]; intros s; simpl.
  - apply steady_ret.
  - apply steady_bind; [apply Hb | exact IH].
Qed.

Lemma steady_if {A : Type} (b : bool) (m1 m2 : M A) :
  steady m1 -> steady m2 -> steady (if b then m1 else m2).
Proof. destruct b; trivial. Qed.

Hypothesis fit_ignores_generator :
  forall h X lengths g g', fst (hmm_fit h X lengths g) = fst (hmm_fit h X lengths g').

Lemma steady_fit (h : GaussianHMM.params) (X : list Row) (lengths : list Z) :
  steady (fit h X lengths).
Proof.
  intros w w'. unfold fit.
  pose proof (fit_ignores_generator h X lengths (rng w) (rng w')) as E.
  destruct (hmm_fit h X lengths (rng w)) as [r g],
           (hmm_fit h X lengths (rng w')) as [r' g'].
  simpl in E. subst r'. destruct r; reflexivity.
Qed.

Lemma steady_base_model (self : ModelSelector.t) (n : Z) :
  steady (ModelSelector.base_model self n).
Proof.
  unfold ModelSelector.base_model. apply steady_try_except.
  - apply steady_bind; [apply steady_fit |]. intros m.
    apply steady_bind; [| intros; apply steady_ret].
    apply steady_if; [apply steady_emit | apply steady_ret].
  - apply steady_bind; [| intros; apply steady_ret].
    apply steady_if; [apply steady_emit | apply steady_ret].
Qed.

Lemma steady_BIC_search (self : ModelSelector.t) : steady (SelectorBIC.search self).
Proof.
  apply steady_for_each. intros [min_BIC best] n. unfold SelectorBIC.step.
  apply steady_try_except; [| apply steady_ret].
  apply steady_bind.
  - unfold SelectorBIC.criterion.
    apply steady_bind; [apply steady_fit |]. intros model.
    apply steady_bind; [apply steady_lift |]. intros logL.
    apply steady_bind; [apply steady_lift |]. intros a.
    apply steady_bind; [apply steady_lift |]. intros b. apply steady_ret.
  - intros BIC. apply steady_if; apply steady_ret.
Qed.

Lemma steady_DIC_search (self : ModelSelector.t) : steady (SelectorDIC.search self).
Proof.
  apply steady_for_each. intros [max_DIC best] n. unfold SelectorDIC.step.
  apply steady_try_except; [| apply steady_ret].
  apply steady_bind.
  - unfold SelectorDIC.criterion.
    apply steady_bind; [apply steady_fit |]. intros model.
    apply steady_bind; [apply steady_lift |]. intros logL.
    apply steady_bind.
    + unfold SelectorDIC.others. apply steady_for_each. intros sumLogL word.
      apply steady_if; [| apply steady_ret].
      destruct (dict_get _ word) as [[X_temp lengths_temp] |]; [| apply steady_raise].
      apply steady_bind; [apply steady_lift | intros; apply steady_ret].
    + intros sumLogL. apply steady_bind; [apply steady_lift | intros; apply steady_ret].
  - intros DIC. apply steady_if; apply steady_ret.
Qed.

Lemma steady_CV_search (self : ModelSelector.t) : steady (SelectorCV.search self).
Proof.
  unfold SelectorCV.search. apply steady_if; [| apply steady_ret].
  apply steady_for_each. intros [best_avg best] n. unfold SelectorCV.step.
  apply steady_try_except; [| apply steady_ret].
  apply steady_bind.
  - unfold SelectorCV.criterion.
    apply steady_bind.
    { unfold split. apply steady_bind; [apply steady_emit | intros; apply steady_lift]. }
    intros folds. apply steady_bind; [| intros; apply steady_lift].
    unfold SelectorCV.sum_folds. apply steady_for_each. intros logL_sum [tr te].
    apply steady_bind; [| intros; apply steady_ret].
    unfold SelectorCV.fold_logL.
    apply steady_bind; [apply steady_lift |]. intros [X_train lengths_train].
    apply steady_bind; [apply steady_fit |]. intros model.
    apply steady_bind; [apply steady_lift |]. intros [X_test lengths_test].
    apply steady_lift.
  - intros avg. apply steady_if; apply steady_ret.
Qed.

End SteadyFacts.

(** X17: with a library whose fit does not depend on the global random
    generator, [select] of each of the four selectors returns the same
    result from any two states of the process: calling it again gives the
    same model. *)
Theorem select_reproducible {B : Backend} (self : ModelSelector.t) (w w' : World) :
  (forall h X lengths g g', fst (hmm_fit h X lengths g) = fst (hmm_fit h X lengths g')) ->
  fst (SelectorConstant.select self w) = fst (SelectorConstant.select self w') /\
  fst (SelectorBIC.select self w) = fst (SelectorBIC.select self w') /\
  fst (SelectorDIC.select self w) = fst (SelectorDIC.select self w') /\
  fst (SelectorCV.select self w) = fst (SelectorCV.select self w').
Proof.
  intros Det. repeat split.
  - apply (steady_base_model Det).
  - apply (steady_bind (SelectorBIC.search self) _ (steady_BIC_search Det self)).
    intros st. apply (steady_base_model Det).
  - apply (steady_bind (SelectorDIC.search self) _ (steady_DIC_search Det self)).
    intros st. apply (steady_base_model Det).
  - apply (steady_bind (SelectorCV.search self) _ (steady_CV_search Det self)).
    intros st. apply (steady_base_model Det).
Qed.

(** X17 at a backend whose fit advances the generator without reading it *)
Lemma select_reproducible_witness :
  fst (SelectorBIC.select Steady.cat Steady.w0) =
  fst (SelectorBIC.select Steady.cat Steady.w5).
Proof.
  apply (@select_reproducible (Steady.backend Examples.cat_table)
           Steady.cat Steady.w0 Steady.w5).
  intros h X lengths g g'. simpl. unfold Steady.fit.
  destruct (_ || _); reflexivity.
Defined.

(** * The constructor and [base_model] *)

Lemma dict_get_none {V : Type} (d : dict V) (k : string) :
  dict_get d k = None <-> ~ In k (dict_keys d).
Proof.
  induction d as [| [k' v] d IH]; simpl; [tauto |].
  destruct (String.eqb_spec k k') as [-> | N].
  - split; [discriminate | intros H; exfalso; apply H; now left].
  - rewrite IH. split; [intros H [E | I]; [congruence | tauto] | tauto].
Qed.

(** X18: the constructor raises KeyError when [this_word] is missing
    from the sequences or from the [(X, lengths)] table, and only then;
    otherwise the selector holds the two tables and this word's entries
    of them. *)
Theorem init_key_error {B : Backend} (aws : dict (list ModelSelector.Sequence))
    (awx : dict (list Row * list Z)) (tw : string) (nc mn mx seed : Z) (vb : bool) :
  (ModelSelector.init aws awx tw nc mn mx seed vb = Raised KeyError <->
   ~ In tw (dict_keys aws) \/ ~ In tw (dict_keys awx)) /\
  (forall self, ModelSelector.init aws awx tw nc mn mx seed vb = Ok self ->
     ModelSelector.words self = aws /\
     ModelSelector.hwords self = awx /\
     ModelSelector.this_word self = tw /\
     dict_get aws tw = Some (ModelSelector.sequences self) /\
     dict_get awx tw = Some (ModelSelector.X self, ModelSelector.lengths self)) /\
  (forall e, ModelSelector.init aws awx tw nc mn mx seed vb = Raised e -> e = KeyError).
Proof.
  unfold ModelSelector.init.
  destruct (dict_get aws tw) as [seqs |] eqn:Ha;
    [destruct (dict_get awx tw) as [[X0 l0] |] eqn:Hx |].
  - split; [| split].
    + split; [discriminate |].
      intros [H | H]; [apply dict_get_none in H | apply dict_get_none in H]; congruence.
    + intros self E. injection E as <-. simpl. auto.
    + discriminate.
  - split; [| split].
    + split; [intros _ | reflexivity]. right. now apply dict_get_none.
    + discriminate.
    + intros e E. now injection E as <-.
  - split; [| split].
    + split; [intros _ | reflexivity]. left. now apply dict_get_none.
    + discriminate.
    + intros e E. now injection E as <-.
Qed.

(** X18 at a word without data: "DOG" has sequences and no [(X, lengths)] *)
Lemma init_key_error_witness :
  @ModelSelector.init (Toy.backend Examples.pets_table)
    [("CAT", [[7]]); ("DOG", [[9]])] [("CAT", ([7], [1]))] "DOG" 3 2 3 14 false
  = Raised KeyError.
Proof.
  apply (proj1 (@init_key_error (Toy.backend Examples.pets_table)
                  [("CAT", [[7]]); ("DOG", [[9]])] [("CAT", ([7], [1]))]
                  "DOG" 3 2 3 14 false)).
  right. simpl. intuition discriminate.
Defined.

(** X19: [base_model] makes exactly one fit, with [num_states] states,
    diagonal covariance, 1000 iterations and the seed of the instance;
    in verbose mode it prints exactly one line, "model created" when it
    returns a model and "failure" when it returns [None], and without
    verbose mode it prints nothing. *)
Theorem base_model_effects {B : Backend} (self : ModelSelector.t) (num_states : Z)
    (w : World) :
  let said :=
    match fst (ModelSelector.base_model self num_states w) with
    | Ok (Some _) => ModelCreated (ModelSelector.this_word self) num_states
    | _ => Failure (ModelSelector.this_word self) num_states
    end in
  trace (snd (ModelSelector.base_model self num_states w)) =
  trace w
    ++ EvFit (GaussianHMM.mk num_states "diag" 1000 (Some (ModelSelector.random_state self)))
    :: (if ModelSelector.verbose self then [EvPrint said] else []).
Proof.
  rewrite base_model_run. cbv zeta.
  destruct (hmm_fit _ _ _ (rng w)) as [[th | e] g]; reflexivity.
Qed.
